(** * Warehouse product editing: detail page and actions menu

    A shallow embedding of the two React components that edit a product's
    quantity and average purchase price:

    - [ProductDetails]  (src/pages/warehouse/products/ProductDetails.tsx)
    - [ProductActionsModal]  (the actions menu with its inline edit form)

    Both talk to a Firestore database ([products], [productMovements]),
    to the notification toasts, to the console and to the router.  The
    embedding keeps the handlers as they are written: a handler is a
    computation over a world made of the database, the answers the
    database will give, the trace of effects issued so far and the
    component's hook state.  An [await] that rejects is an exception;
    [try]/[catch]/[finally] are combinators.

    Numbers.  JavaScript numbers are modelled by [Z]: on integers in the
    safe range the operations the handlers use ([<], [>], [*], [-],
    [Math.abs], [|| 0]) are exact.  A handler runs against the values its
    closure captured at the last render; it is modelled as one atomic
    step, user events arriving between two awaits are not modelled. *)

From Stdlib Require Import ZArith Bool Lia.
From stdpp Require Import gmap strings list.

Local Open Scope string_scope.
Local Open Scope Z_scope.

(** ** JavaScript helpers *)

(** [x || 0] on a number: [0] is the only falsy integer. *)
Definition or_zero (x : Z) : Z := if x =? 0 then 0 else x.

(** [x || 0] on a possibly undefined number. *)
Definition opt_or_zero (x : option Z) : Z :=
  match x with
  | Some v => or_zero v
  | None => 0
  end.

(** A timestamp field: the [serverTimestamp()] sentinel as the client
    writes it, or the time the server put in its place. *)
Inductive Timestamp :=
| serverTimestamp
| At (t : Z).

Definition resolve_time (now : Z) (ts : Timestamp) : Timestamp :=
  match ts with
  | serverTimestamp => At now
  | At t => At t
  end.

(** ** Data model *)

Module Product.

(** Modelled from the spec: the [Product] type of [types/product] is not
    among the sources.  The fields are the ones of section 3 of the
    specification, under the names the components read and write;
    [image] and [minQuantity] are the optional ones. *)
Record t := mk {
  id : string;
  name : string;
  category : string;
  quantity : Z;
  unit : string;
  averagePurchasePrice : Z;
  totalPurchasePrice : Z;
  image : option string;
  minQuantity : option Z;
  updatedAt : Timestamp
}.

(** The object [updateDoc] receives from both save handlers. *)
Record patch := mkPatch {
  p_quantity : Z;
  p_averagePurchasePrice : Z;
  p_totalPurchasePrice : Z;
  p_updatedAt : Timestamp
}.

(** Field update of a stored document, the timestamp sentinel replaced
    by the server's time. *)
Definition apply_patch (now : Z) (u : patch) (d : t) : t :=
  {| id := id d; name := name d; category := category d;
     quantity := p_quantity u;
     unit := unit d;
     averagePurchasePrice := p_averagePurchasePrice u;
     totalPurchasePrice := p_totalPurchasePrice u;
     image := image d; minQuantity := minQuantity d;
     updatedAt := resolve_time now (p_updatedAt u) |}.

(** [{ id: snapshot.id, ...snapshot.data() }]; stored documents carry
    no [id] field of their own, so the document key is the id. *)
Definition of_snapshot (key : string) (d : t) : t :=
  {| id := key; name := name d; category := category d;
     quantity := quantity d; unit := unit d;
     averagePurchasePrice := averagePurchasePrice d;
     totalPurchasePrice := totalPurchasePrice d;
     image := image d; minQuantity := minQuantity d;
     updatedAt := updatedAt d |}.

(** [{ ...product, quantity, averagePurchasePrice, totalPurchasePrice }] *)
Definition with_edit (p : t) (q a total : Z) : t :=
  {| id := id p; name := name p; category := category p;
     quantity := q; unit := unit p;
     averagePurchasePrice := a;
     totalPurchasePrice := total;
     image := image p; minQuantity := minQuantity p;
     updatedAt := updatedAt p |}.

End Product.

Inductive Direction := dir_in | dir_out.

Module Movement.

(** The object the detail page writes to [productMovements]; the field
    names are the ones of the source ([type] is a keyword here). *)
Record t := mk {
  productId : string;
  type_ : Direction;
  quantity : Z;
  price : Z;
  totalPrice : Z;
  date : Timestamp;
  description : string;
  warehouse : string;
  previousQuantity : Z;
  newQuantity : Z;
  previousAveragePrice : Z;
  newAveragePrice : Z
}.

Definition stamped (now : Z) (m : t) : t :=
  {| productId := productId m; type_ := type_ m; quantity := quantity m;
     price := price m; totalPrice := totalPrice m;
     date := resolve_time now (date m);
     description := description m; warehouse := warehouse m;
     previousQuantity := previousQuantity m; newQuantity := newQuantity m;
     previousAveragePrice := previousAveragePrice m;
     newAveragePrice := newAveragePrice m |}.

End Movement.

(** ** The database and the effects *)

(** The two collections.  [productMovements] only grows: documents are
    created under fresh generated ids, so a list in order of creation. *)
Record Firestore := mkDb {
  products : gmap string Product.t;
  productMovements : list Movement.t
}.

(** What the server answers to one request: it resolves at some server
    time, or the promise rejects. *)
Inductive Outcome :=
| Resolves (now : Z)
| Rejects (reason : string).

(** The payload both quantity dialogs hand to the router:
    [{ state: { addedProduct: { product, quantity } } }]. *)
Record NavState := mkNav {
  addedProduct_product : Product.t;
  addedProduct_quantity : Z
}.

(** Everything a handler does to the outside, in the order it does it.
    [U] is the component's type of hook updates. *)
Inductive Effect (U : Type) :=
| GetDoc (id : string)
| UpdateDoc (id : string) (u : Product.patch)
| SetDoc (m : Movement.t)
| ConsoleError (msg error : string)
| ShowErrorNotification (msg : string)
| ShowSuccessNotification (msg : string)
| Navigate (path : string) (st : option NavState)
| NavigateBack
| OnClose
| SetState (u : U).

Arguments GetDoc {U} id.
Arguments UpdateDoc {U} id u.
Arguments SetDoc {U} m.
Arguments ConsoleError {U} msg error.
Arguments ShowErrorNotification {U} msg.
Arguments ShowSuccessNotification {U} msg.
Arguments Navigate {U} path st.
Arguments NavigateBack {U}.
Arguments OnClose {U}.
Arguments SetState {U} u.

(** A request to the database. *)
Definition is_request {U} (e : Effect U) : bool :=
  match e with
  | GetDoc _ | UpdateDoc _ _ | SetDoc _ => true
  | _ => false
  end.

Definition is_error_notification {U} (e : Effect U) : bool :=
  match e with
  | ShowErrorNotification _ => true
  | _ => false
  end.

Definition is_success_notification {U} (e : Effect U) : bool :=
  match e with
  | ShowSuccessNotification _ => true
  | _ => false
  end.

Definition is_navigation {U} (e : Effect U) : bool :=
  match e with
  | Navigate _ _ | NavigateBack => true
  | _ => false
  end.

Section Handlers.

(** [C] is the component's state (hooks and props), [U] its updates. *)
Context {C U : Type}.
Variable update : U -> C -> C.

Record World := mkWorld {
  db : Firestore;
  (** the answer to the n-th request of the session *)
  answers : nat -> Outcome;
  issued : nat;
  trace : list (Effect U);
  ui : C
}.

Inductive Completion (A : Type) :=
| Normal (a : A)
| Throw (error : string).

Arguments Normal {A} a.
Arguments Throw {A} error.

Definition Handler (A : Type) : Type := World -> Completion A * World.

Definition ret {A} (a : A) : Handler A := fun w => (Normal a, w).

Definition bind {A B} (m : Handler A) (k : A -> Handler B) : Handler B :=
  fun w =>
    match m w with
    | (Normal a, w') => k a w'
    | (Throw e, w') => (Throw e, w')
    end.

(** [try { body } catch (error) { handler }] *)
Definition try_catch {A} (body : Handler A) (handler : string -> Handler A)
  : Handler A :=
  fun w =>
    match body w with
    | (Normal a, w') => (Normal a, w')
    | (Throw e, w') => handler e w'
    end.

(** [... finally { final }] around a computation. *)
Definition finally {A} (body : Handler A) (final : Handler unit) : Handler A :=
  fun w =>
    match body w with
    | (r, w') =>
        match final w' with
        | (Normal _, w'') => (r, w'')
        | (Throw e, w'') => (Throw e, w'')
        end
    end.

Definition emit (e : Effect U) (w : World) : World :=
  {| db := db w; answers := answers w; issued := issued w;
     trace := trace w ++ [e]; ui := ui w |}.

Definition with_db (d : Firestore) (w : World) : World :=
  {| db := d; answers := answers w; issued := issued w;
     trace := trace w; ui := ui w |}.

Definition with_ui (c : C) (w : World) : World :=
  {| db := db w; answers := answers w; issued := issued w;
     trace := trace w; ui := c |}.

(** Sending a request: it is recorded and takes the next answer. *)
Definition send (e : Effect U) (w : World) : Outcome * World :=
  (answers w (issued w),
   {| db := db w; answers := answers w; issued := S (issued w);
      trace := trace w ++ [e]; ui := ui w |}).

(** The values the handler's closure captured. *)
Definition closure : Handler C := fun w => (Normal (ui w), w).

(** A hook setter, or a prop the parent changes. *)
Definition setState (u : U) : Handler unit :=
  fun w => (Normal tt, with_ui (update u (ui w)) (emit (SetState u) w)).

Definition showErrorNotification (msg : string) : Handler unit :=
  fun w => (Normal tt, emit (ShowErrorNotification msg) w).

Definition showSuccessNotification (msg : string) : Handler unit :=
  fun w => (Normal tt, emit (ShowSuccessNotification msg) w).

Definition console_error (msg error : string) : Handler unit :=
  fun w => (Normal tt, emit (ConsoleError msg error) w).

Definition navigate (path : string) (st : option NavState) : Handler unit :=
  fun w => (Normal tt, emit (Navigate path st) w).

(** [navigate(-1)] *)
Definition navigate_back : Handler unit :=
  fun w => (Normal tt, emit NavigateBack w).

(** [await getDoc(doc(db, 'products', id))]: the snapshot's data, [None]
    when [exists()] is false. *)
Definition getDoc (id : string) : Handler (option Product.t) :=
  fun w =>
    match send (GetDoc id) w with
    | (Rejects r, w') => (Throw r, w')
    | (Resolves _, w') => (Normal (products (db w') !! id), w')
    end.

(** [await updateDoc(doc(db, 'products', id), u)]: Firestore updates
    fields of an existing document and rejects when there is none. *)
Definition updateDoc (id : string) (u : Product.patch) : Handler unit :=
  fun w =>
    match send (UpdateDoc id u) w with
    | (Rejects r, w') => (Throw r, w')
    | (Resolves now, w') =>
        match products (db w') !! id with
        | None => (Throw "not-found", w')
        | Some d =>
            (Normal tt,
             with_db {| products := <[id := Product.apply_patch now u d]>
                                      (products (db w'));
                        productMovements := productMovements (db w') |} w')
        end
    end.

(** [await setDoc(doc(collection(db, 'productMovements')), m)]: a new
    document under a generated id. *)
Definition setDoc (m : Movement.t) : Handler unit :=
  fun w =>
    match send (SetDoc m) w with
    | (Rejects r, w') => (Throw r, w')
    | (Resolves now, w') =>
        (Normal tt,
         with_db {| products := products (db w');
                    productMovements :=
                      productMovements (db w') ++ [Movement.stamped now m] |} w')
    end.

(** Running a handler for its effect on the world. *)
Definition exec {A} (h : Handler A) (w : World) : World := snd (h w).

End Handlers.

Arguments World : clear implicits.
Arguments Normal {A} a.
Arguments Throw {A} error.
Arguments Handler : clear implicits.

Notation "'let!' x ':=' m 'in' k" := (bind m (fun x => k))
  (at level 10, x name, m at level 100, k at level 200, only parsing).
Notation "m ';;' k" := (bind m (fun _ => k))
  (at level 100, k at level 200, right associativity, only parsing).

(** The new part of a trace. *)
Definition since {U} (before after : list (Effect U)) : list (Effect U) :=
  drop (length before) after.

(** The first write of a save fails with [r]: the request is rejected, or
    it resolves on a document that does not exist. *)
Definition update_fails {C U} (w : World C U) (key r : string) : Prop :=
  answers w (issued w) = Rejects r
  \/ (r = "not-found"
      /\ products (db w) !! key = None
      /\ exists now, answers w (issued w) = Resolves now).

(** ** The product detail page *)

Module ProductDetails.

Inductive Code := barcode | qrcode.

(** The route parameter and the hooks of the component. *)
Record State := mkState {
  id : option string;
  product : option Product.t;
  showHistory : bool;
  activeCode : Code;
  loading : bool;
  isEditing : bool;
  editedQuantity : Z;
  editedPrice : Z;
  showPasswordPrompt : bool;
  isFocused : bool
}.

Inductive Update :=
| setProduct (p : option Product.t)
| setShowHistory (b : bool)
| setActiveCode (c : Code)
| setLoading (b : bool)
| setIsEditing (b : bool)
| setEditedQuantity (q : Z)
| setEditedPrice (a : Z)
| setShowPasswordPrompt (b : bool)
| setIsFocused (b : bool).

Definition update (u : Update) (s : State) : State :=
  match u with
  | setProduct p =>
      mkState (id s) p (showHistory s) (activeCode s) (loading s)
        (isEditing s) (editedQuantity s) (editedPrice s)
        (showPasswordPrompt s) (isFocused s)
  | setShowHistory b =>
      mkState (id s) (product s) b (activeCode s) (loading s)
        (isEditing s) (editedQuantity s) (editedPrice s)
        (showPasswordPrompt s) (isFocused s)
  | setActiveCode c =>
      mkState (id s) (product s) (showHistory s) c (loading s)
        (isEditing s) (editedQuantity s) (editedPrice s)
        (showPasswordPrompt s) (isFocused s)
  | setLoading b =>
      mkState (id s) (product s) (showHistory s) (activeCode s) b
        (isEditing s) (editedQuantity s) (editedPrice s)
        (showPasswordPrompt s) (isFocused s)
  | setIsEditing b =>
      mkState (id s) (product s) (showHistory s) (activeCode s) (loading s)
        b (editedQuantity s) (editedPrice s)
        (showPasswordPrompt s) (isFocused s)
  | setEditedQuantity q =>
      mkState (id s) (product s) (showHistory s) (activeCode s) (loading s)
        (isEditing s) q (editedPrice s)
        (showPasswordPrompt s) (isFocused s)
  | setEditedPrice a =>
      mkState (id s) (product s) (showHistory s) (activeCode s) (loading s)
        (isEditing s) (editedQuantity s) a
        (showPasswordPrompt s) (isFocused s)
  | setShowPasswordPrompt b =>
      mkState (id s) (product s) (showHistory s) (activeCode s) (loading s)
        (isEditing s) (editedQuantity s) (editedPrice s)
        b (isFocused s)
  | setIsFocused b =>
      mkState (id s) (product s) (showHistory s) (activeCode s) (loading s)
        (isEditing s) (editedQuantity s) (editedPrice s)
        (showPasswordPrompt s) b
  end.

(** The [useState] initial values, for the route parameter [i]. *)
Definition initial (i : option string) : State :=
  {| id := i; product := None; showHistory := false; activeCode := qrcode;
     loading := true; isEditing := false; editedQuantity := 0;
     editedPrice := 0; showPasswordPrompt := false; isFocused := false |}.

Abbreviation W := (World State Update).
Abbreviation H := (Handler State Update).

Definition set (u : Update) : H unit := setState update u.

(** The effect run on mount.  [if (!id) return]: an undefined route
    parameter and the empty string are falsy. *)
Definition loadProduct : H unit :=
  let! c := closure in
  match id c with
  | None => ret tt
  | Some i =>
      if decide (i = "") then ret tt
      else
        finally
          (try_catch
             (let! productDoc := getDoc i in
              match productDoc with
              | Some d =>
                  let productData := Product.of_snapshot i d in
                  set (setProduct (Some productData));;
                  set (setEditedQuantity (or_zero (Product.quantity productData)));;
                  set (setEditedPrice
                         (or_zero (Product.averagePurchasePrice productData)))
              | None => ret tt
              end)
             (fun error => console_error "Error loading product:" error))
          (set (setLoading false))
  end.

Definition handleEditClick : H unit :=
  set (setShowPasswordPrompt true).

Definition handlePasswordSuccess : H unit :=
  set (setShowPasswordPrompt false);;
  set (setIsEditing true).

(** The movement the save handler writes for product [p] edited to
    quantity [q] and price [a]. *)
Definition movement_of (p : Product.t) (q a : Z) : Movement.t :=
  let previousQuantity := Product.quantity p in
  let previousPrice := Product.averagePurchasePrice p in
  let isIncrease := q >? previousQuantity in
  {| Movement.productId := Product.id p;
     Movement.type_ := if isIncrease then dir_in else dir_out;
     Movement.quantity := Z.abs (q - previousQuantity);
     Movement.price := a;
     Movement.totalPrice := Z.abs (q - previousQuantity) * a;
     Movement.date := serverTimestamp;
     Movement.description := "Ручная корректировка количества";
     Movement.warehouse := "Основной склад";
     Movement.previousQuantity := previousQuantity;
     Movement.newQuantity := q;
     Movement.previousAveragePrice := previousPrice;
     Movement.newAveragePrice := a |}.

Definition patch_of (q a : Z) : Product.patch :=
  {| Product.p_quantity := q;
     Product.p_averagePurchasePrice := a;
     Product.p_totalPurchasePrice := q * a;
     Product.p_updatedAt := serverTimestamp |}.

Definition handleSave : H unit :=
  let! c := closure in
  match product c with
  | None => ret tt
  | Some p =>
      if editedQuantity c <? 0 then
        showErrorNotification "Количество товара не может быть отрицательным"
      else if editedPrice c <? 0 then
        showErrorNotification "Цена товара не может быть отрицательной"
      else
        try_catch
          (updateDoc (Product.id p)
             (patch_of (editedQuantity c) (editedPrice c));;
           set (setProduct
                  (Some (Product.with_edit p (editedQuantity c) (editedPrice c)
                           (editedQuantity c * editedPrice c))));;
           setDoc (movement_of p (editedQuantity c) (editedPrice c));;
           set (setIsEditing false);;
           showSuccessNotification "Количество товара успешно обновлено")
          (fun error =>
             console_error "Error updating product:" error;;
             showErrorNotification "Ошибка при обновлении количества товара")
  end.

(** The worlds a save that passed validation can end in, for the
    product [p] of the closure, by what the database answered. *)
Section SaveOutcomes.

Variable w : W.
Variable p : Product.t.

Let q := editedQuantity (ui w).
Let a := editedPrice (ui w).
Let synced := Product.with_edit p q a (q * a).

(** [updateDoc] rejected with [r]. *)
Definition save_update_rejected (r : string) : W :=
  {| db := db w; answers := answers w; issued := S (issued w);
     trace := trace w ++
       [UpdateDoc (Product.id p) (patch_of q a);
        ConsoleError "Error updating product:" r;
        ShowErrorNotification "Ошибка при обновлении количества товара"];
     ui := ui w |}.

(** [updateDoc] resolved at [now] on the stored document [d], then
    [setDoc] rejected with [r]. *)
Definition save_append_rejected (now : Z) (d : Product.t) (r : string) : W :=
  {| db := {| products :=
                <[Product.id p := Product.apply_patch now (patch_of q a) d]>
                  (products (db w));
              productMovements := productMovements (db w) |};
     answers := answers w; issued := S (S (issued w));
     trace := trace w ++
       [UpdateDoc (Product.id p) (patch_of q a);
        SetState (setProduct (Some synced));
        SetDoc (movement_of p q a);
        ConsoleError "Error updating product:" r;
        ShowErrorNotification "Ошибка при обновлении количества товара"];
     ui := update (setProduct (Some synced)) (ui w) |}.

(** Both writes resolved, at [now] and [now']. *)
Definition save_done (now now' : Z) (d : Product.t) : W :=
  {| db := {| products :=
                <[Product.id p := Product.apply_patch now (patch_of q a) d]>
                  (products (db w));
              productMovements :=
                productMovements (db w) ++
                  [Movement.stamped now' (movement_of p q a)] |};
     answers := answers w; issued := S (S (issued w));
     trace := trace w ++
       [UpdateDoc (Product.id p) (patch_of q a);
        SetState (setProduct (Some synced));
        SetDoc (movement_of p q a);
        SetState (setIsEditing false);
        ShowSuccessNotification "Количество товара успешно обновлено"];
     ui := update (setIsEditing false)
             (update (setProduct (Some synced)) (ui w)) |}.

End SaveOutcomes.

(** *** What is rendered *)

(** A quantity or price cell: plain text, or a number input whose value
    is the empty string ([None]) for a focused zero. *)
Inductive Field :=
| Text (shown : Z)
| Input (value : option Z).

Inductive Button := SaveButton | CancelButton | EditButton.

Record Page := mkPage {
  heading : string;
  quantityField : Field;
  priceField : Field;
  totalCost : Z;
  buttons : list Button;
  inStock : bool;
  code : Code;
  codeValue : string;
  historyOpen : bool;
  passwordPromptOpen : bool
}.

Inductive View :=
| Spinner
| NotFound
| Details (pg : Page).

Definition input_value (focused : bool) (v : Z) : option Z :=
  if focused && (v =? 0) then None else Some v.

Definition render (s : State) : View :=
  if loading s then Spinner
  else
    match product s with
    | None => NotFound
    | Some p =>
        Details
          {| heading := Product.name p;
             quantityField :=
               if isEditing s
               then Input (input_value (isFocused s) (editedQuantity s))
               else Text (Product.quantity p);
             priceField :=
               if isEditing s
               then Input (input_value (isFocused s) (editedPrice s))
               else Text (Product.averagePurchasePrice p);
             totalCost :=
               Product.quantity p * or_zero (Product.averagePurchasePrice p);
             buttons :=
               if isEditing s then [SaveButton; CancelButton] else [EditButton];
             inStock :=
               Product.quantity p >? opt_or_zero (Product.minQuantity p);
             code := activeCode s;
             codeValue := Product.id p;
             historyOpen := showHistory s;
             passwordPromptOpen := showPasswordPrompt s |}
    end.

(** The quantity and price cells accept input. *)
Definition editable (v : View) : bool :=
  match v with
  | Details pg =>
      match quantityField pg, priceField pg with
      | Text _, Text _ => false
      | _, _ => true
      end
  | _ => false
  end.

(** *** User events *)

(** What the user, the password prompt and the history dialog can do
    to the page.  An input hands over [e.target.value]: the empty
    string ([None]) or a number.  The password prompt and the history
    dialog are not among the sources: an event of theirs
    ([PromptClose], [PromptSuccess], [HistoryClose]) is the call of the
    callback the page hands them. *)
Inductive Event :=
| ClickBackToList
| ClickBack
| ChangeQuantity (value : option Z)
| ChangePrice (value : option Z)
| FocusInput
| BlurInput
| ClickSave
| ClickCancel
| ClickEdit
| ClickBarcode
| ClickQrcode
| ClickShowHistory
| HistoryClose
| PromptClose
| PromptSuccess.

(** [Number(e.target.value || 0)] *)
Definition number_of_value (value : option Z) : Z :=
  match value with
  | None => 0
  | Some v => v
  end.

Definition has_button (b : Button) (pg : Page) : bool :=
  existsb (fun b' => match b, b' with
                     | SaveButton, SaveButton
                     | CancelButton, CancelButton
                     | EditButton, EditButton => true
                     | _, _ => false
                     end) (buttons pg).

Definition is_input (f : Field) : bool :=
  match f with
  | Input _ => true
  | Text _ => false
  end.

(** The element the event comes from is on the screen. *)
Definition offered (v : View) (e : Event) : bool :=
  match v, e with
  | Spinner, _ => false
  | NotFound, ClickBackToList => true
  | NotFound, _ => false
  | Details _, ClickBackToList => false
  | Details _, (ClickBack | ClickBarcode | ClickQrcode | ClickShowHistory) => true
  | Details pg, ChangeQuantity _ => is_input (quantityField pg)
  | Details pg, ChangePrice _ => is_input (priceField pg)
  | Details pg, (FocusInput | BlurInput) =>
      is_input (quantityField pg) || is_input (priceField pg)
  | Details pg, ClickSave => has_button SaveButton pg
  | Details pg, ClickCancel => has_button CancelButton pg
  | Details pg, ClickEdit => has_button EditButton pg
  | Details pg, HistoryClose => historyOpen pg
  | Details pg, (PromptClose | PromptSuccess) => passwordPromptOpen pg
  end.

Definition handler (e : Event) : H unit :=
  match e with
  | ClickBackToList => navigate "/warehouse/products" None
  | ClickBack => navigate_back
  | ChangeQuantity value => set (setEditedQuantity (number_of_value value))
  | ChangePrice value => set (setEditedPrice (number_of_value value))
  | FocusInput => set (setIsFocused true)
  | BlurInput => set (setIsFocused false)
  | ClickSave => handleSave
  | ClickCancel => set (setIsEditing false)
  | ClickEdit => handleEditClick
  | ClickBarcode => set (setActiveCode barcode)
  | ClickQrcode => set (setActiveCode qrcode)
  | ClickShowHistory => set (setShowHistory true)
  | HistoryClose => set (setShowHistory false)
  | PromptClose => set (setShowPasswordPrompt false)
  | PromptSuccess => handlePasswordSuccess
  end.

(** One event: its handler runs when its element is rendered. *)
Definition step (w : W) (e : Event) : W :=
  if offered (render (ui w)) e then exec (handler e) w else w.

Definition run (w : W) (es : list Event) : W := fold_left step es w.

(** The page right after it is mounted on route parameter [i]: the
    initial hooks, then the load effect. *)
Definition mount (d : Firestore) (ans : nat -> Outcome) (i : option string) : W :=
  exec loadProduct
    {| db := d; answers := ans; issued := 0%nat; trace := []; ui := initial i |}.

End ProductDetails.

(** ** The product actions menu *)

Module ProductActionsModal.

(** The dialogs the menu opens besides the password prompt. *)
Inductive Dialog :=
| MoveFolderModal
| ProductMovementModal
| ProductStockModal
| DeleteProductModal
| ExpenseQuantityModal
| IncomeQuantityModal.

(** The props [isOpen] and [product], then the hooks. *)
Record State := mkState {
  isOpen : bool;
  product : Product.t;
  showMoveFolder : bool;
  showMovement : bool;
  showStock : bool;
  showDelete : bool;
  showExpenseQuantity : bool;
  showIncomeQuantity : bool;
  showPasswordPrompt : bool;
  isEditing : bool;
  editedQuantity : Z;
  editedPrice : Z
}.

Inductive Update :=
| parentSetsIsOpen (b : bool)
| setShowMoveFolder (b : bool)
| setShowMovement (b : bool)
| setShowStock (b : bool)
| setShowDelete (b : bool)
| setShowExpenseQuantity (b : bool)
| setShowIncomeQuantity (b : bool)
| setShowPasswordPrompt (b : bool)
| setIsEditing (b : bool)
| setEditedQuantity (q : Z)
| setEditedPrice (a : Z).

Definition update (u : Update) (s : State) : State :=
  match u with
  | parentSetsIsOpen b =>
      mkState b (product s) (showMoveFolder s) (showMovement s) (showStock s)
        (showDelete s) (showExpenseQuantity s) (showIncomeQuantity s)
        (showPasswordPrompt s) (isEditing s) (editedQuantity s) (editedPrice s)
  | setShowMoveFolder b =>
      mkState (isOpen s) (product s) b (showMovement s) (showStock s)
        (showDelete s) (showExpenseQuantity s) (showIncomeQuantity s)
        (showPasswordPrompt s) (isEditing s) (editedQuantity s) (editedPrice s)
  | setShowMovement b =>
      mkState (isOpen s) (product s) (showMoveFolder s) b (showStock s)
        (showDelete s) (showExpenseQuantity s) (showIncomeQuantity s)
        (showPasswordPrompt s) (isEditing s) (editedQuantity s) (editedPrice s)
  | setShowStock b =>
      mkState (isOpen s) (product s) (showMoveFolder s) (showMovement s) b
        (showDelete s) (showExpenseQuantity s) (showIncomeQuantity s)
        (showPasswordPrompt s) (isEditing s) (editedQuantity s) (editedPrice s)
  | setShowDelete b =>
      mkState (isOpen s) (product s) (showMoveFolder s) (showMovement s)
        (showStock s) b (showExpenseQuantity s) (showIncomeQuantity s)
        (showPasswordPrompt s) (isEditing s) (editedQuantity s) (editedPrice s)
  | setShowExpenseQuantity b =>
      mkState (isOpen s) (product s) (showMoveFolder s) (showMovement s)
        (showStock s) (showDelete s) b (showIncomeQuantity s)
        (showPasswordPrompt s) (isEditing s) (editedQuantity s) (editedPrice s)
  | setShowIncomeQuantity b =>
      mkState (isOpen s) (product s) (showMoveFolder s) (showMovement s)
        (showStock s) (showDelete s) (showExpenseQuantity s) b
        (showPasswordPrompt s) (isEditing s) (editedQuantity s) (editedPrice s)
  | setShowPasswordPrompt b =>
      mkState (isOpen s) (product s) (showMoveFolder s) (showMovement s)
        (showStock s) (showDelete s) (showExpenseQuantity s)
        (showIncomeQuantity s) b (isEditing s) (editedQuantity s) (editedPrice s)
  | setIsEditing b =>
      mkState (isOpen s) (product s) (showMoveFolder s) (showMovement s)
        (showStock s) (showDelete s) (showExpenseQuantity s)
        (showIncomeQuantity s) (showPasswordPrompt s) b
        (editedQuantity s) (editedPrice s)
  | setEditedQuantity q =>
      mkState (isOpen s) (product s) (showMoveFolder s) (showMovement s)
        (showStock s) (showDelete s) (showExpenseQuantity s)
        (showIncomeQuantity s) (showPasswordPrompt s) (isEditing s)
        q (editedPrice s)
  | setEditedPrice a =>
      mkState (isOpen s) (product s) (showMoveFolder s) (showMovement s)
        (showStock s) (showDelete s) (showExpenseQuantity s)
        (showIncomeQuantity s) (showPasswordPrompt s) (isEditing s)
        (editedQuantity s) a
  end.

(** The [useState] initial values of an instance mounted with props
    [isOpen = o] and [product = p]: the hooks run before the early
    [return null], so also for a closed instance. *)
Definition initial (o : bool) (p : Product.t) : State :=
  {| isOpen := o; product := p;
     showMoveFolder := false; showMovement := false; showStock := false;
     showDelete := false; showExpenseQuantity := false;
     showIncomeQuantity := false; showPasswordPrompt := false;
     isEditing := false;
     editedQuantity := or_zero (Product.quantity p);
     editedPrice := or_zero (Product.averagePurchasePrice p) |}.

Abbreviation W := (World State Update).
Abbreviation H := (Handler State Update).

Definition set (u : Update) : H unit := setState update u.

(** Modelled from the spec: the parent that owns [isOpen] and [onClose]
    is not among the sources.  Calling [onClose] closes the menu
    ("Closed on outer close"): the call is recorded and the prop
    becomes false; the instance and its hooks stay as they are. *)
Definition onClose : H unit :=
  fun w => (Normal tt,
            with_ui (update (parentSetsIsOpen false) (ui w)) (emit OnClose w)).

Definition handleEdit : H unit :=
  set (setShowPasswordPrompt true).

Definition handlePasswordSuccess : H unit :=
  set (setShowPasswordPrompt false);;
  set (setIsEditing true).

Definition patch_of (q a : Z) : Product.patch :=
  {| Product.p_quantity := q;
     Product.p_averagePurchasePrice := a;
     Product.p_totalPurchasePrice := q * a;
     Product.p_updatedAt := serverTimestamp |}.

Definition handleSave : H unit :=
  let! c := closure in
  try_catch
    (if editedQuantity c <? 0 then
       showErrorNotification "Количество не может быть отрицательным"
     else if editedPrice c <? 0 then
       showErrorNotification "Цена не может быть отрицательной"
     else
       updateDoc (Product.id (product c))
         (patch_of (editedQuantity c) (editedPrice c));;
       showSuccessNotification "Товар успешно обновлен";;
       onClose)
    (fun error =>
       console_error "Error updating product:" error;;
       showErrorNotification "Ошибка при обновлении товара").

Definition handleExpenseQuantityConfirm (quantity : Z) : H unit :=
  let! c := closure in
  navigate "/warehouse/expense/new"
    (Some {| addedProduct_product := product c;
             addedProduct_quantity := quantity |});;
  onClose.

Definition handleIncomeQuantityConfirm (quantity : Z) : H unit :=
  let! c := closure in
  navigate "/warehouse/income/new"
    (Some {| addedProduct_product := product c;
             addedProduct_quantity := quantity |});;
  onClose.

(** The entries of the [actions] array, in order. *)
Inductive Action :=
| Edit
| AddToExpense
| AddToIncome
| MoveToFolder
| Movement
| Stock
| Delete.

Definition label (a : Action) : string :=
  match a with
  | Edit => "Редактировать"
  | AddToExpense => "Добавить в расход"
  | AddToIncome => "Добавить в приход"
  | MoveToFolder => "Переместить в папку"
  | Movement => "Движение товара"
  | Stock => "Наличие на складах"
  | Delete => "Удалить"
  end.

Definition actions : list Action :=
  [Edit; AddToExpense; AddToIncome; MoveToFolder; Movement; Stock; Delete].

Definition onClick (a : Action) : H unit :=
  match a with
  | Edit => handleEdit
  | AddToExpense => set (setShowExpenseQuantity true)
  | AddToIncome => set (setShowIncomeQuantity true)
  | MoveToFolder => set (setShowMoveFolder true)
  | Movement => set (setShowMovement true)
  | Stock => set (setShowStock true)
  | Delete => set (setShowDelete true)
  end.

(** The [isOpen] prop each dialog is rendered with. *)
Definition dialog_open (s : State) (d : Dialog) : bool :=
  match d with
  | MoveFolderModal => showMoveFolder s
  | ProductMovementModal => showMovement s
  | ProductStockModal => showStock s
  | DeleteProductModal => showDelete s
  | ExpenseQuantityModal => showExpenseQuantity s
  | IncomeQuantityModal => showIncomeQuantity s
  end.

(** The [onClose] prop each dialog is rendered with. *)
Definition dialog_onClose (d : Dialog) : H unit :=
  match d with
  | MoveFolderModal => set (setShowMoveFolder false)
  | ProductMovementModal => set (setShowMovement false)
  | ProductStockModal => set (setShowStock false)
  | DeleteProductModal => set (setShowDelete false)
  | ExpenseQuantityModal => set (setShowExpenseQuantity false)
  | IncomeQuantityModal => set (setShowIncomeQuantity false)
  end.

Definition dialogs : list Dialog :=
  [MoveFolderModal; ProductMovementModal; ProductStockModal;
   DeleteProductModal; ExpenseQuantityModal; IncomeQuantityModal].

(** The worlds a save of the inline form that passed validation can
    end in. *)
Section SaveOutcomes.

Variable w : W.

Let q := editedQuantity (ui w).
Let a := editedPrice (ui w).
Let key := Product.id (product (ui w)).

(** [updateDoc] rejected with [r]. *)
Definition save_rejected (r : string) : W :=
  {| db := db w; answers := answers w; issued := S (issued w);
     trace := trace w ++
       [UpdateDoc key (patch_of q a);
        ConsoleError "Error updating product:" r;
        ShowErrorNotification "Ошибка при обновлении товара"];
     ui := ui w |}.

(** [updateDoc] resolved at [now] on the stored document [d]. *)
Definition save_done (now : Z) (d : Product.t) : W :=
  {| db := {| products :=
                <[key := Product.apply_patch now (patch_of q a) d]>
                  (products (db w));
              productMovements := productMovements (db w) |};
     answers := answers w; issued := S (issued w);
     trace := trace w ++
       [UpdateDoc key (patch_of q a);
        ShowSuccessNotification "Товар успешно обновлен";
        OnClose];
     ui := update (parentSetsIsOpen false) (ui w) |}.

End SaveOutcomes.

(** *** What is rendered *)

Inductive Body :=
| EditForm (quantity price : Z)
| Menu (items : list Action).

Record Screen := mkScreen {
  title : string;
  body : Body;
  passwordPromptOpen : bool;
  openDialogs : list Dialog
}.

(** [None] is the early [return null]. *)
Definition render (s : State) : option Screen :=
  if isOpen s then
    Some {| title := if isEditing s then "Редактирование товара"
                     else Product.name (product s);
            body := if isEditing s
                    then EditForm (editedQuantity s) (editedPrice s)
                    else Menu actions;
            passwordPromptOpen := showPasswordPrompt s;
            openDialogs := List.filter (dialog_open s) dialogs |}
  else None.

(** The quantity and price inputs are on the screen. *)
Definition editable (v : option Screen) : bool :=
  match v with
  | Some sc => match body sc with EditForm _ _ => true | Menu _ => false end
  | None => false
  end.

(** *** Events *)

(** Modelled from the spec: who calls the callbacks.  The parent
    ([Open]), the password prompt ([PromptClose], [PromptSuccess]), the
    dialogs ([DialogClose]) and the quantity dialog ([ExpenseConfirm],
    [IncomeConfirm]) are not among the sources; an event of theirs is
    the call of the callback the menu hands them.  For the quantity
    dialog the specification says it "collects a single non-negative
    quantity, confirms, and invokes a caller-supplied callback with that
    quantity; performs no persistence itself": confirming with [q] is
    the call [onConfirm(q)].  The other events are the user's, on the
    elements the menu renders; an input hands over [e.target.value],
    the empty string ([None]) or a number. *)
Inductive Event :=
| Open
| ClickClose
| ClickAction (a : Action)
| ChangeQuantity (value : option Z)
| ChangePrice (value : option Z)
| ClickCancel
| ClickSave
| PromptClose
| PromptSuccess
| DialogClose (d : Dialog)
| ExpenseConfirm (q : Z)
| IncomeConfirm (q : Z).

(** [Number(e.target.value)]: the empty string is [0]. *)
Definition number_of_value (value : option Z) : Z :=
  match value with
  | None => 0
  | Some v => v
  end.

Definition dialog_eqb (d d' : Dialog) : bool :=
  match d, d' with
  | MoveFolderModal, MoveFolderModal
  | ProductMovementModal, ProductMovementModal
  | ProductStockModal, ProductStockModal
  | DeleteProductModal, DeleteProductModal
  | ExpenseQuantityModal, ExpenseQuantityModal
  | IncomeQuantityModal, IncomeQuantityModal => true
  | _, _ => false
  end.

Definition is_form (b : Body) : bool :=
  match b with
  | EditForm _ _ => true
  | Menu _ => false
  end.

(** The element the event comes from is on the screen; the parent can
    always set the prop. *)
Definition offered (v : option Screen) (e : Event) : bool :=
  match e, v with
  | Open, _ => true
  | _, None => false
  | ClickClose, Some _ => true
  | ClickAction _, Some sc => negb (is_form (body sc))
  | (ChangeQuantity _ | ChangePrice _ | ClickCancel | ClickSave), Some sc =>
      is_form (body sc)
  | (PromptClose | PromptSuccess), Some sc => passwordPromptOpen sc
  | DialogClose d, Some sc => existsb (dialog_eqb d) (openDialogs sc)
  | ExpenseConfirm _, Some sc =>
      existsb (dialog_eqb ExpenseQuantityModal) (openDialogs sc)
  | IncomeConfirm _, Some sc =>
      existsb (dialog_eqb IncomeQuantityModal) (openDialogs sc)
  end.

Definition handler (e : Event) : H unit :=
  match e with
  | Open => set (parentSetsIsOpen true)
  | ClickClose => onClose
  | ClickAction a => onClick a
  | ChangeQuantity value => set (setEditedQuantity (number_of_value value))
  | ChangePrice value => set (setEditedPrice (number_of_value value))
  | ClickCancel => set (setIsEditing false)
  | ClickSave => handleSave
  | PromptClose => set (setShowPasswordPrompt false)
  | PromptSuccess => handlePasswordSuccess
  | DialogClose d => dialog_onClose d
  | ExpenseConfirm q => handleExpenseQuantityConfirm q
  | IncomeConfirm q => handleIncomeQuantityConfirm q
  end.

Definition step (w : W) (e : Event) : W :=
  if offered (render (ui w)) e then exec (handler e) w else w.

Definition run (w : W) (es : list Event) : W := fold_left step es w.

(** A closed instance just mounted for product [p]. *)
Definition mount (d : Firestore) (ans : nat -> Outcome) (p : Product.t) : W :=
  {| db := d; answers := ans; issued := 0%nat; trace := [];
     ui := initial false p |}.

(** *** The states of the menu *)

Inductive Phase :=
| Closed
| MenuOpen
| EditingInline
| AwaitingPassword
| SubDialogOpen (d : Dialog).

(** What is in front of the user: nothing when closed; the password
    prompt over everything of the menu; then an open dialog; then the
    edit form or the list of actions. *)
Definition phase (s : State) : Phase :=
  if negb (isOpen s) then Closed
  else if showPasswordPrompt s then AwaitingPassword
  else
    match List.filter (dialog_open s) dialogs with
    | d :: _ => SubDialogOpen d
    | [] => if isEditing s then EditingInline else MenuOpen
    end.

(** The dialog an action opens; [Edit] opens the password prompt. *)
Definition dialog_of (a : Action) : option Dialog :=
  match a with
  | Edit => None
  | AddToExpense => Some ExpenseQuantityModal
  | AddToIncome => Some IncomeQuantityModal
  | MoveToFolder => Some MoveFolderModal
  | Movement => Some ProductMovementModal
  | Stock => Some ProductStockModal
  | Delete => Some DeleteProductModal
  end.

(** The flags of an instance: the prop, the prompt, the edit form and
    the dialogs whose flag is set. *)
Definition flags (s : State) : bool * bool * bool * list Dialog :=
  (isOpen s, showPasswordPrompt s, isEditing s,
   List.filter (dialog_open s) dialogs).

(** The instance is in phase [ph] and nothing else is set: in
    particular a closed instance with all its hooks clear, as a fresh
    mount leaves them. *)
Definition exactly (ph : Phase) (s : State) : Prop :=
  flags s =
    match ph with
    | Closed => (false, false, false, [])
    | MenuOpen => (true, false, false, [])
    | EditingInline => (true, false, true, [])
    | AwaitingPassword => (true, true, false, [])
    | SubDialogOpen d => (true, false, false, [d])
    end.

(** The state with exactly the flags of [ph], for product [p] and
    form values [q] and [a]. *)
Definition canonical (ph : Phase) (p : Product.t) (q a : Z) : State :=
  let showing d :=
    match ph with
    | SubDialogOpen d' => dialog_eqb d d'
    | _ => false
    end in
  {| isOpen := match ph with Closed => false | _ => true end;
     product := p;
     showMoveFolder := showing MoveFolderModal;
     showMovement := showing ProductMovementModal;
     showStock := showing ProductStockModal;
     showDelete := showing DeleteProductModal;
     showExpenseQuantity := showing ExpenseQuantityModal;
     showIncomeQuantity := showing IncomeQuantityModal;
     showPasswordPrompt :=
       match ph with AwaitingPassword => true | _ => false end;
     isEditing := match ph with EditingInline => true | _ => false end;
     editedQuantity := q;
     editedPrice := a |}.

(** The transitions of section 4.2 of the specification, following its
    words: Closed to MenuOpen on open; MenuOpen to EditingInline,
    AwaitingPassword or a sub-dialog; these back to MenuOpen on dialog
    close (failure or cancel for the prompt), or to Closed on outer
    close; AwaitingPassword to EditingInline on a successful
    challenge.  An event may also leave the phase as it is. *)
Definition spec_transition (from to : Phase) : bool :=
  match from, to with
  | Closed, Closed => true
  | Closed, MenuOpen => true
  | Closed, _ => false
  | _, Closed => true
  | MenuOpen, _ => true
  | AwaitingPassword, (EditingInline | MenuOpen | AwaitingPassword) => true
  | AwaitingPassword, SubDialogOpen _ => false
  | EditingInline, (MenuOpen | EditingInline) => true
  | EditingInline, _ => false
  | SubDialogOpen d, SubDialogOpen d' => dialog_eqb d d'
  | SubDialogOpen _, MenuOpen => true
  | SubDialogOpen _, _ => false
  end.

End ProductActionsModal.

(** ** A running example

    The scenario of the specification: a product with quantity 10 and
    average price 100, edited to quantity 15 and price 120. *)

Module Scenario.

Definition cement : Product.t :=
  {| Product.id := "p1"; Product.name := "Цемент";
     Product.category := "Стройматериалы";
     Product.quantity := 10; Product.unit := "шт";
     Product.averagePurchasePrice := 100;
     Product.totalPurchasePrice := 1000;
     Product.image := None; Product.minQuantity := Some 5;
     Product.updatedAt := At 1 |}.

Definition stock : Firestore :=
  {| products := {[ "p1" := cement ]}; productMovements := [] |}.

(** A database without the product. *)
Definition sold_out : Firestore :=
  {| products := ∅; productMovements := [] |}.

(** Every request resolves, at server time [now]. *)
Definition online (now : Z) : nat -> Outcome := fun _ => Resolves now.

(** Every request is rejected. *)
Definition offline : nat -> Outcome := fun _ => Rejects "unavailable".

(** The first [n] requests resolve, the later ones are rejected. *)
Definition fails_after (n : nat) (now : Z) : nat -> Outcome :=
  fun k => if (k <? n)%nat then Resolves now else Rejects "unavailable".

(** The detail page of [cement], unlocked and edited to [q] and [a]. *)
Definition detail_edited (ans : nat -> Outcome) (q a : Z) : ProductDetails.W :=
  ProductDetails.run (ProductDetails.mount stock ans (Some "p1"))
    [ProductDetails.ClickEdit; ProductDetails.PromptSuccess;
     ProductDetails.ChangeQuantity (Some q);
     ProductDetails.ChangePrice (Some a)].

(** The actions menu of [cement], opened, unlocked and edited. *)
Definition menu_edited (ans : nat -> Outcome) (q a : Z) : ProductActionsModal.W :=
  ProductActionsModal.run (ProductActionsModal.mount stock ans cement)
    [ProductActionsModal.Open;
     ProductActionsModal.ClickAction ProductActionsModal.Edit;
     ProductActionsModal.PromptSuccess;
     ProductActionsModal.ChangeQuantity (Some q);
     ProductActionsModal.ChangePrice (Some a)].

End Scenario.

(** ** What the database and the page should agree on *)

(** A stored product the editing views may leave behind: quantity and
    price are not negative and the total is their product. *)
Definition sound_product (d : Product.t) : Prop :=
  0 <= Product.quantity d
  /\ 0 <= Product.averagePurchasePrice d
  /\ Product.totalPurchasePrice d =
       Product.quantity d * Product.averagePurchasePrice d.

Definition sound_stock (f : Firestore) : Prop :=
  map_Forall (fun _ d => sound_product d) (products f).

(** A movement as the detail page computes it from a valid edit. *)
Definition well_formed (m : Movement.t) : Prop :=
  0 <= Movement.quantity m
  /\ 0 <= Movement.price m
  /\ 0 <= Movement.newQuantity m
  /\ Movement.quantity m =
       Z.abs (Movement.newQuantity m - Movement.previousQuantity m)
  /\ Movement.totalPrice m = Movement.quantity m * Movement.price m
  /\ Movement.price m = Movement.newAveragePrice m
  /\ (Movement.type_ m = dir_in <->
      Movement.previousQuantity m < Movement.newQuantity m).

(** * Properties *)

(** ** Evaluating handlers *)

Ltac unfold_handler :=
  cbv beta iota zeta delta
    [fst snd exec bind ret closure try_catch finally setState
     showErrorNotification showSuccessNotification console_error
     navigate navigate_back getDoc updateDoc setDoc send emit with_db with_ui
     ProductDetails.set ProductActionsModal.set ProductActionsModal.onClose].

Ltac case_answers :=
  repeat match goal with
         | |- context [match ?x with _ => _ end] =>
             match type of x with
             | Outcome => destruct x
             | option Product.t => destruct x
             end; cbn
         end.

Lemma or_zero_id (x : Z) : or_zero x = x.
Proof. unfold or_zero. destruct (Z.eqb_spec x 0); congruence. Qed.

(** ** The save handler of the detail page, case by case *)

Module ProductDetailsFacts.
Import ProductDetails.

Lemma detail_save_not_loaded (w : W) :
  product (ui w) = None -> exec handleSave w = w.
Proof.
  intros Hp. unfold handleSave. unfold_handler. rewrite Hp. reflexivity.
Qed.

Lemma detail_save_negative_quantity (w : W) (p : Product.t) :
  product (ui w) = Some p ->
  editedQuantity (ui w) < 0 ->
  exec handleSave w =
    emit (ShowErrorNotification
            "Количество товара не может быть отрицательным") w.
Proof.
  intros Hp Hq. unfold handleSave. unfold_handler. rewrite Hp.
  destruct (Z.ltb_spec (editedQuantity (ui w)) 0); [reflexivity | lia].
Qed.

Lemma detail_save_negative_price (w : W) (p : Product.t) :
  product (ui w) = Some p ->
  0 <= editedQuantity (ui w) ->
  editedPrice (ui w) < 0 ->
  exec handleSave w =
    emit (ShowErrorNotification "Цена товара не может быть отрицательной") w.
Proof.
  intros Hp Hq Ha. unfold handleSave. unfold_handler. rewrite Hp.
  destruct (Z.ltb_spec (editedQuantity (ui w)) 0); [lia |].
  destruct (Z.ltb_spec (editedPrice (ui w)) 0); [reflexivity | lia].
Qed.

Lemma detail_save_valid (w : W) (p : Product.t) :
  product (ui w) = Some p ->
  0 <= editedQuantity (ui w) ->
  0 <= editedPrice (ui w) ->
  exec handleSave w =
    match answers w (issued w) with
    | Rejects r => save_update_rejected w p r
    | Resolves now =>
        match products (db w) !! Product.id p with
        | None => save_update_rejected w p "not-found"
        | Some d =>
            match answers w (S (issued w)) with
            | Rejects r => save_append_rejected w p now d r
            | Resolves now' => save_done w p now now' d
            end
        end
    end.
Proof.
  intros Hp Hq Ha. unfold handleSave. unfold_handler. rewrite Hp.
  destruct (Z.ltb_spec (editedQuantity (ui w)) 0) as [Hn|_]; [lia|].
  destruct (Z.ltb_spec (editedPrice (ui w)) 0) as [Hn|_]; [lia|].
  cbn [db answers issued trace ui products productMovements].
  unfold save_update_rejected, save_append_rejected, save_done.
  case_answers; rewrite <- ?app_assoc; reflexivity.
Qed.

End ProductDetailsFacts.

(** ** The save handler of the actions menu, case by case *)

Module ProductActionsModalFacts.
Import ProductActionsModal.

Lemma menu_save_negative_quantity (w : W) :
  editedQuantity (ui w) < 0 ->
  exec handleSave w =
    emit (ShowErrorNotification "Количество не может быть отрицательным") w.
Proof.
  intros Hq. unfold handleSave. unfold_handler.
  destruct (Z.ltb_spec (editedQuantity (ui w)) 0); [reflexivity | lia].
Qed.

Lemma menu_save_negative_price (w : W) :
  0 <= editedQuantity (ui w) ->
  editedPrice (ui w) < 0 ->
  exec handleSave w =
    emit (ShowErrorNotification "Цена не может быть отрицательной") w.
Proof.
  intros Hq Ha. unfold handleSave. unfold_handler.
  destruct (Z.ltb_spec (editedQuantity (ui w)) 0); [lia |].
  destruct (Z.ltb_spec (editedPrice (ui w)) 0); [reflexivity | lia].
Qed.

Lemma menu_save_valid (w : W) :
  0 <= editedQuantity (ui w) ->
  0 <= editedPrice (ui w) ->
  exec handleSave w =
    match answers w (issued w) with
    | Rejects r => save_rejected w r
    | Resolves now =>
        match products (db w) !! Product.id (product (ui w)) with
        | None => save_rejected w "not-found"
        | Some d => save_done w now d
        end
    end.
Proof.
  intros Hq Ha. unfold handleSave. unfold_handler.
  destruct (Z.ltb_spec (editedQuantity (ui w)) 0) as [Hn|_]; [lia|].
  destruct (Z.ltb_spec (editedPrice (ui w)) 0) as [Hn|_]; [lia|].
  cbn [db answers issued trace ui products productMovements].
  unfold save_rejected, save_done.
  case_answers; rewrite <- ?app_assoc; reflexivity.
Qed.

(** The inline save never touches the movement log. *)
Lemma menu_save_movements (w : W) :
  productMovements (db (exec handleSave w)) = productMovements (db w).
Proof.
  destruct (Z.lt_ge_cases (editedQuantity (ui w)) 0) as [Hq|Hq].
  { rewrite menu_save_negative_quantity by assumption. reflexivity. }
  destruct (Z.lt_ge_cases (editedPrice (ui w)) 0) as [Ha|Ha].
  { rewrite menu_save_negative_price by assumption. reflexivity. }
  rewrite menu_save_valid by assumption.
  case_answers; reflexivity.
Qed.

End ProductActionsModalFacts.

(** ** Sanity checks on the running example *)

Example detail_edited_state :
  ui (Scenario.detail_edited (Scenario.online 7) 15 120) =
    {| ProductDetails.id := Some "p1";
       ProductDetails.product := Some Scenario.cement;
       ProductDetails.showHistory := false;
       ProductDetails.activeCode := ProductDetails.qrcode;
       ProductDetails.loading := false;
       ProductDetails.isEditing := true;
       ProductDetails.editedQuantity := 15;
       ProductDetails.editedPrice := 120;
       ProductDetails.showPasswordPrompt := false;
       ProductDetails.isFocused := false |}.
Proof. vm_compute. reflexivity. Qed.

Example menu_edited_state :
  ui (Scenario.menu_edited (Scenario.online 7) 15 120) =
    {| ProductActionsModal.isOpen := true;
       ProductActionsModal.product := Scenario.cement;
       ProductActionsModal.showMoveFolder := false;
       ProductActionsModal.showMovement := false;
       ProductActionsModal.showStock := false;
       ProductActionsModal.showDelete := false;
       ProductActionsModal.showExpenseQuantity := false;
       ProductActionsModal.showIncomeQuantity := false;
       ProductActionsModal.showPasswordPrompt := false;
       ProductActionsModal.isEditing := true;
       ProductActionsModal.editedQuantity := 15;
       ProductActionsModal.editedPrice := 120 |}.
Proof. vm_compute. reflexivity. Qed.

(** The scenario of the specification on the detail page: the product
    becomes quantity 15, price 120, total 1800, and one movement "in" of
    5 from 10 to 15 is written. *)
Example detail_scenario :
  let w := ProductDetails.step
             (Scenario.detail_edited (Scenario.online 7) 15 120)
             ProductDetails.ClickSave in
  products (db w) !! "p1" =
    Some (Product.apply_patch 7 (ProductDetails.patch_of 15 120) Scenario.cement)
  /\ Product.totalPurchasePrice
       (Product.apply_patch 7 (ProductDetails.patch_of 15 120) Scenario.cement)
     = 1800
  /\ productMovements (db w) =
       [Movement.stamped 7 (ProductDetails.movement_of Scenario.cement 15 120)]
  /\ Movement.type_ (ProductDetails.movement_of Scenario.cement 15 120) = dir_in
  /\ Movement.quantity (ProductDetails.movement_of Scenario.cement 15 120) = 5
  /\ Movement.previousQuantity
       (ProductDetails.movement_of Scenario.cement 15 120) = 10
  /\ Movement.newQuantity
       (ProductDetails.movement_of Scenario.cement 15 120) = 15.
Proof. vm_compute. repeat split; reflexivity. Qed.

(** ** Saving a quantity or price edit *)

Lemma since_app {U} (t new : list (Effect U)) : since t (t ++ new)%list = new.
Proof. unfold since. apply drop_app_length. Qed.

(** A successful save on the detail page appends exactly one movement,
    whose quantity is the absolute change and whose direction is the
    sign of the change. *)
Lemma detail_save_logs_one_movement
    (w : ProductDetails.W) (p d : Product.t) (now now' : Z) :
  ProductDetails.product (ui w) = Some p ->
  0 <= ProductDetails.editedQuantity (ui w) ->
  0 <= ProductDetails.editedPrice (ui w) ->
  products (db w) !! Product.id p = Some d ->
  answers w (issued w) = Resolves now ->
  answers w (S (issued w)) = Resolves now' ->
  exists m,
    productMovements (db (exec ProductDetails.handleSave w)) =
      (productMovements (db w) ++ [m])%list
    /\ Movement.productId m = Product.id p
    /\ Movement.quantity m =
         Z.abs (ProductDetails.editedQuantity (ui w) - Product.quantity p)
    /\ Movement.type_ m =
         (if ProductDetails.editedQuantity (ui w) >? Product.quantity p
          then dir_in else dir_out).
Proof.
  intros Hp Hq Ha Hd H1 H2.
  rewrite (ProductDetailsFacts.detail_save_valid w p Hp Hq Ha), H1, Hd, H2.
  eexists. split; [reflexivity|]. cbn. auto.
Qed.

(** C1 (the code does not do this on the actions menu).  Claimed: every
    successful quantity/price edit, from the detail page or from the
    inline form of the actions menu, appends exactly one movement record.
    On the scenario of the specification (10 at 100 edited to 15 at 120,
    every request resolving) the inline save of the menu updates the
    product and reports success, and the movement log stays empty; the
    save of the detail page on the same edit writes the movement. *)
Theorem C1_menu_save_writes_no_movement :
  let w := Scenario.menu_edited (Scenario.online 7) 15 120 in
  let w' := ProductActionsModal.step w ProductActionsModal.ClickSave in
  products (db w') !! "p1" =
    Some (Product.apply_patch 7 (ProductActionsModal.patch_of 15 120)
            Scenario.cement)
  /\ since (trace w) (trace w') =
       [UpdateDoc "p1" (ProductActionsModal.patch_of 15 120);
        ShowSuccessNotification "Товар успешно обновлен";
        OnClose]
  /\ productMovements (db w') = []
  /\ productMovements
       (db (ProductDetails.step
              (Scenario.detail_edited (Scenario.online 7) 15 120)
              ProductDetails.ClickSave)) =
       [Movement.stamped 7 (ProductDetails.movement_of Scenario.cement 15 120)].
Proof. vm_compute. repeat split; reflexivity. Qed.

(** The save button of the detail page is on the screen only for a
    loaded product in edit mode. *)
Lemma detail_save_offered (s : ProductDetails.State) :
  ProductDetails.offered (ProductDetails.render s) ProductDetails.ClickSave = true ->
  exists p,
    ProductDetails.product s = Some p
    /\ ProductDetails.loading s = false
    /\ ProductDetails.isEditing s = true.
Proof.
  unfold ProductDetails.render.
  destruct (ProductDetails.loading s); [discriminate|].
  destruct (ProductDetails.product s) as [p|]; [|discriminate].
  cbn. destruct (ProductDetails.isEditing s); [eauto | discriminate].
Qed.

(** C2.  A save attempted with a negative quantity or a negative price,
    by the save button of the detail page or by the save handler of the
    inline form of the actions menu, sends no request to the database
    (no product update, no movement), leaves the database and the
    component state as they were, and shows exactly one error
    notification. *)
Theorem C2_negative_input_rejected :
  (forall (w : ProductDetails.W),
      ProductDetails.offered (ProductDetails.render (ui w))
        ProductDetails.ClickSave = true ->
      ProductDetails.editedQuantity (ui w) < 0
      \/ ProductDetails.editedPrice (ui w) < 0 ->
      let w' := ProductDetails.step w ProductDetails.ClickSave in
      db w' = db w /\ issued w' = issued w /\ ui w' = ui w
      /\ exists msg, trace w' = (trace w ++ [ShowErrorNotification msg])%list)
  /\
  (forall (w : ProductActionsModal.W),
      ProductActionsModal.editedQuantity (ui w) < 0
      \/ ProductActionsModal.editedPrice (ui w) < 0 ->
      let w' := exec ProductActionsModal.handleSave w in
      db w' = db w /\ issued w' = issued w /\ ui w' = ui w
      /\ exists msg, trace w' = (trace w ++ [ShowErrorNotification msg])%list).
Proof.
  split.
  - intros w Hshown Hneg w'. subst w'. unfold ProductDetails.step.
    rewrite Hshown. cbn [ProductDetails.handler].
    destruct (detail_save_offered (ui w) Hshown) as (p & Hp & _).
    destruct (Z.lt_ge_cases (ProductDetails.editedQuantity (ui w)) 0) as [Hq|Hq].
    + rewrite (ProductDetailsFacts.detail_save_negative_quantity w p Hp Hq).
      cbn. eauto 6.
    + destruct Hneg as [Hn|Ha]; [lia|].
      rewrite (ProductDetailsFacts.detail_save_negative_price w p Hp Hq Ha).
      cbn. eauto 6.
  - intros w Hneg w'. subst w'.
    destruct (Z.lt_ge_cases (ProductActionsModal.editedQuantity (ui w)) 0)
      as [Hq|Hq].
    + rewrite (ProductActionsModalFacts.menu_save_negative_quantity w Hq).
      cbn. eauto 6.
    + destruct Hneg as [Hn|Ha]; [lia|].
      rewrite (ProductActionsModalFacts.menu_save_negative_price w Hq Ha).
      cbn. eauto 6.
Qed.

(** The scenario of the specification: quantity 10 edited to -1 is
    rejected on the detail page; a negative price is rejected in the
    menu. *)
Lemma C2_negative_input_rejected_witness :
  (let w := Scenario.detail_edited (Scenario.online 7) (-1) 100 in
   let w' := ProductDetails.step w ProductDetails.ClickSave in
   db w' = db w /\ issued w' = issued w /\ ui w' = ui w
   /\ exists msg, trace w' = (trace w ++ [ShowErrorNotification msg])%list)
  /\
  (let w := Scenario.menu_edited (Scenario.online 7) 10 (-5) in
   let w' := exec ProductActionsModal.handleSave w in
   db w' = db w /\ issued w' = issued w /\ ui w' = ui w
   /\ exists msg, trace w' = (trace w ++ [ShowErrorNotification msg])%list).
Proof.
  split.
  - apply (proj1 C2_negative_input_rejected
             (Scenario.detail_edited (Scenario.online 7) (-1) 100)).
    + vm_compute. reflexivity.
    + left. vm_compute. reflexivity.
  - apply (proj2 C2_negative_input_rejected
             (Scenario.menu_edited (Scenario.online 7) 10 (-5))).
    right. vm_compute. reflexivity.
Defined.

(** C3.  A save on the detail page with a loaded product and
    non-negative quantity and price first asks the database to update the
    product (quantity, price, total = quantity * price, server
    timestamp); whatever the database answers, the requests it sends are
    that update and then the movement, in this order, and never a read.
    When both writes resolve, the effects are, in order: the product
    update; the local product set to the held product with the edited
    quantity, price and total (no read-back); the movement computed from
    the previous and the new values (direction by [>], quantity and
    total price by the absolute change); edit mode left; the success
    notification.  The stored product, the appended movement and the
    local product are the records written out below. *)
Theorem C3_valid_save_order (w : ProductDetails.W) (p : Product.t) :
  ProductDetails.product (ui w) = Some p ->
  0 <= ProductDetails.editedQuantity (ui w) ->
  0 <= ProductDetails.editedPrice (ui w) ->
  let q := ProductDetails.editedQuantity (ui w) in
  let a := ProductDetails.editedPrice (ui w) in
  let update := UpdateDoc (Product.id p)
                  {| Product.p_quantity := q;
                     Product.p_averagePurchasePrice := a;
                     Product.p_totalPurchasePrice := q * a;
                     Product.p_updatedAt := serverTimestamp |} in
  let movement (date : Timestamp) :=
    {| Movement.productId := Product.id p;
       Movement.type_ := if q >? Product.quantity p then dir_in else dir_out;
       Movement.quantity := Z.abs (q - Product.quantity p);
       Movement.price := a;
       Movement.totalPrice := Z.abs (q - Product.quantity p) * a;
       Movement.date := date;
       Movement.description := "Ручная корректировка количества";
       Movement.warehouse := "Основной склад";
       Movement.previousQuantity := Product.quantity p;
       Movement.newQuantity := q;
       Movement.previousAveragePrice := Product.averagePurchasePrice p;
       Movement.newAveragePrice := a |} in
  let append := SetDoc (movement serverTimestamp) in
  let synced :=
    {| Product.id := Product.id p; Product.name := Product.name p;
       Product.category := Product.category p;
       Product.quantity := q; Product.unit := Product.unit p;
       Product.averagePurchasePrice := a;
       Product.totalPurchasePrice := q * a;
       Product.image := Product.image p;
       Product.minQuantity := Product.minQuantity p;
       Product.updatedAt := Product.updatedAt p |} in
  let w' := exec ProductDetails.handleSave w in
  (exists rest, since (trace w) (trace w') = update :: rest)
  /\ (List.filter is_request (since (trace w) (trace w')) = [update]
      \/ List.filter is_request (since (trace w) (trace w')) = [update; append])
  /\ (forall (d : Product.t) (now now' : Z),
        products (db w) !! Product.id p = Some d ->
        answers w (issued w) = Resolves now ->
        answers w (S (issued w)) = Resolves now' ->
        since (trace w) (trace w') =
          [update;
           SetState (ProductDetails.setProduct (Some synced));
           append;
           SetState (ProductDetails.setIsEditing false);
           ShowSuccessNotification "Количество товара успешно обновлено"]
        /\ products (db w') !! Product.id p =
             Some {| Product.id := Product.id d; Product.name := Product.name d;
                     Product.category := Product.category d;
                     Product.quantity := q; Product.unit := Product.unit d;
                     Product.averagePurchasePrice := a;
                     Product.totalPurchasePrice := q * a;
                     Product.image := Product.image d;
                     Product.minQuantity := Product.minQuantity d;
                     Product.updatedAt := At now |}
        /\ productMovements (db w') =
             (productMovements (db w) ++ [movement (At now')])%list
        /\ ProductDetails.product (ui w') = Some synced
        /\ ProductDetails.isEditing (ui w') = false
        /\ ProductDetails.editedQuantity (ui w') = q
        /\ ProductDetails.editedPrice (ui w') = a).
Proof.
  intros Hp Hq Ha q a update movement append synced w'. subst w'.
  rewrite (ProductDetailsFacts.detail_save_valid w p Hp Hq Ha).
  split; [|split].
  - destruct (answers w (issued w)) as [now|r];
      [destruct (products (db w) !! Product.id p) as [d|];
       [destruct (answers w (S (issued w))) as [now'|r]|]|];
      cbn [trace ProductDetails.save_update_rejected
             ProductDetails.save_append_rejected ProductDetails.save_done];
      rewrite since_app; eexists; reflexivity.
  - destruct (answers w (issued w)) as [now|r];
      [destruct (products (db w) !! Product.id p) as [d|];
       [destruct (answers w (S (issued w))) as [now'|r]|]|];
      cbn [trace ProductDetails.save_update_rejected
             ProductDetails.save_append_rejected ProductDetails.save_done];
      rewrite since_app; cbn; auto.
  - intros d now now' Hd H1 H2. rewrite H1, Hd, H2.
    cbn [trace db ui products productMovements ProductDetails.save_done].
    rewrite since_app, lookup_insert_eq.
    repeat split.
Qed.

(** The scenario of the specification: 10 at 100 saved as 15 at 120
    gives the product 15 at 120 with total 1800 and one movement "in"
    of 5, from 10 to 15, worth 600. *)
Lemma C3_valid_save_order_witness :
  let w := Scenario.detail_edited (Scenario.online 7) 15 120 in
  let w' := exec ProductDetails.handleSave w in
  since (trace w) (trace w') =
    [UpdateDoc "p1"
       {| Product.p_quantity := 15;
          Product.p_averagePurchasePrice := 120;
          Product.p_totalPurchasePrice := 1800;
          Product.p_updatedAt := serverTimestamp |};
     SetState (ProductDetails.setProduct
                 (Some {| Product.id := "p1"; Product.name := "Цемент";
                          Product.category := "Стройматериалы";
                          Product.quantity := 15; Product.unit := "шт";
                          Product.averagePurchasePrice := 120;
                          Product.totalPurchasePrice := 1800;
                          Product.image := None;
                          Product.minQuantity := Some 5;
                          Product.updatedAt := At 1 |}));
     SetDoc {| Movement.productId := "p1";
               Movement.type_ := dir_in;
               Movement.quantity := 5;
               Movement.price := 120;
               Movement.totalPrice := 600;
               Movement.date := serverTimestamp;
               Movement.description := "Ручная корректировка количества";
               Movement.warehouse := "Основной склад";
               Movement.previousQuantity := 10;
               Movement.newQuantity := 15;
               Movement.previousAveragePrice := 100;
               Movement.newAveragePrice := 120 |};
     SetState (ProductDetails.setIsEditing false);
     ShowSuccessNotification "Количество товара успешно обновлено"].
Proof.
  intros w w'.
  assert (Hp : ProductDetails.product (ui w) = Some Scenario.cement)
    by (vm_compute; reflexivity).
  assert (Hq : 0 <= ProductDetails.editedQuantity (ui w))
    by (vm_compute; discriminate).
  assert (Ha : 0 <= ProductDetails.editedPrice (ui w))
    by (vm_compute; discriminate).
  pose proof (C3_valid_save_order w Scenario.cement Hp Hq Ha) as [_ [_ Hall]].
  destruct (Hall Scenario.cement 7 7) as [Htrace _];
    [vm_compute; reflexivity | reflexivity | reflexivity |].
  etransitivity; [exact Htrace | vm_compute; reflexivity].
Defined.

(** C9.  On the detail page, a save with valid inputs whose quantity
    equals the product's current quantity (nothing changed, or only the
    price) still appends a movement: quantity 0, direction "out", total
    price 0. *)
Theorem C9_unchanged_quantity_still_logged
    (w : ProductDetails.W) (p d : Product.t) (now now' : Z) :
  ProductDetails.product (ui w) = Some p ->
  ProductDetails.editedQuantity (ui w) = Product.quantity p ->
  0 <= ProductDetails.editedQuantity (ui w) ->
  0 <= ProductDetails.editedPrice (ui w) ->
  products (db w) !! Product.id p = Some d ->
  answers w (issued w) = Resolves now ->
  answers w (S (issued w)) = Resolves now' ->
  exists m,
    productMovements (db (exec ProductDetails.handleSave w)) =
      (productMovements (db w) ++ [m])%list
    /\ Movement.productId m = Product.id p
    /\ Movement.quantity m = 0
    /\ Movement.type_ m = dir_out
    /\ Movement.totalPrice m = 0
    /\ Movement.previousQuantity m = Movement.newQuantity m.
Proof.
  intros Hp Hsame Hq Ha Hd H1 H2.
  rewrite (ProductDetailsFacts.detail_save_valid w p Hp Hq Ha), H1, Hd, H2.
  eexists. split; [reflexivity|].
  cbn. rewrite Hsame, Z.sub_diag, Z.gtb_ltb, Z.ltb_irrefl. cbn. auto.
Qed.

(** A price-only edit of the running example: 10 at 100 saved as 10 at 120. *)
Lemma C9_unchanged_quantity_still_logged_witness :
  exists m,
    productMovements
      (db (exec ProductDetails.handleSave
             (Scenario.detail_edited (Scenario.online 7) 10 120))) =
      (productMovements
         (db (Scenario.detail_edited (Scenario.online 7) 10 120)) ++ [m])%list
    /\ Movement.productId m = "p1"
    /\ Movement.quantity m = 0
    /\ Movement.type_ m = dir_out
    /\ Movement.totalPrice m = 0
    /\ Movement.previousQuantity m = Movement.newQuantity m.
Proof.
  apply (C9_unchanged_quantity_still_logged
           (Scenario.detail_edited (Scenario.online 7) 10 120)
           Scenario.cement Scenario.cement 7 7).
  - vm_compute; reflexivity.
  - vm_compute; reflexivity.
  - vm_compute; discriminate.
  - vm_compute; discriminate.
  - vm_compute; reflexivity.
  - reflexivity.
  - reflexivity.
Defined.

(** The total shown on the detail page is computed from the quantity and
    the average price of the product the page holds; the stored
    [totalPurchasePrice] is not read. *)
Lemma displayed_total (s : ProductDetails.State) (pg : ProductDetails.Page) :
  ProductDetails.render s = ProductDetails.Details pg ->
  exists p,
    ProductDetails.product s = Some p
    /\ ProductDetails.totalCost pg =
         Product.quantity p * Product.averagePurchasePrice p.
Proof.
  unfold ProductDetails.render.
  destruct (ProductDetails.loading s); [discriminate|].
  destruct (ProductDetails.product s) as [p|]; [|discriminate].
  intros [= <-]. exists p. cbn. rewrite or_zero_id. auto.
Qed.

(** C4.  After a successful save the stored [totalPurchasePrice] is the
    edited quantity times the edited price, on the detail page and in
    the actions menu; the total the detail page then shows is that same
    product of quantity and average price; and in every state the shown
    total is computed from the quantity and the average price of the
    product held by the page, whatever its stored total says. *)
Theorem C4_total_is_quantity_times_price :
  (forall (w : ProductDetails.W) (p d : Product.t) (now now' : Z),
      ProductDetails.loading (ui w) = false ->
      ProductDetails.product (ui w) = Some p ->
      0 <= ProductDetails.editedQuantity (ui w) ->
      0 <= ProductDetails.editedPrice (ui w) ->
      products (db w) !! Product.id p = Some d ->
      answers w (issued w) = Resolves now ->
      answers w (S (issued w)) = Resolves now' ->
      let q := ProductDetails.editedQuantity (ui w) in
      let a := ProductDetails.editedPrice (ui w) in
      let w' := exec ProductDetails.handleSave w in
      (exists d', products (db w') !! Product.id p = Some d'
                  /\ Product.quantity d' = q
                  /\ Product.averagePurchasePrice d' = a
                  /\ Product.totalPurchasePrice d' = q * a)
      /\ (exists pg, ProductDetails.render (ui w') = ProductDetails.Details pg
                     /\ ProductDetails.totalCost pg = q * a))
  /\
  (forall (s : ProductDetails.State) (p : Product.t) (stale : Z),
      ProductDetails.loading s = false ->
      ProductDetails.product s = Some p ->
      exists pg pg',
        ProductDetails.render s = ProductDetails.Details pg
        /\ ProductDetails.render
             (ProductDetails.update
                (ProductDetails.setProduct
                   (Some (Product.with_edit p (Product.quantity p)
                            (Product.averagePurchasePrice p) stale))) s)
           = ProductDetails.Details pg'
        /\ ProductDetails.totalCost pg' = ProductDetails.totalCost pg
        /\ ProductDetails.totalCost pg =
             Product.quantity p * Product.averagePurchasePrice p)
  /\
  (forall (w : ProductActionsModal.W) (d : Product.t) (now : Z),
      0 <= ProductActionsModal.editedQuantity (ui w) ->
      0 <= ProductActionsModal.editedPrice (ui w) ->
      products (db w) !! Product.id (ProductActionsModal.product (ui w)) = Some d ->
      answers w (issued w) = Resolves now ->
      let q := ProductActionsModal.editedQuantity (ui w) in
      let a := ProductActionsModal.editedPrice (ui w) in
      let w' := exec ProductActionsModal.handleSave w in
      exists d',
        products (db w') !! Product.id (ProductActionsModal.product (ui w)) = Some d'
        /\ Product.quantity d' = q
        /\ Product.averagePurchasePrice d' = a
        /\ Product.totalPurchasePrice d' = q * a).
Proof.
  split; [|split].
  - intros w p d now now' Hl Hp Hq Ha Hd H1 H2 q a w'. subst w'.
    rewrite (ProductDetailsFacts.detail_save_valid w p Hp Hq Ha), H1, Hd, H2.
    split.
    + eexists. cbn. rewrite lookup_insert_eq. repeat split.
    + unfold ProductDetails.render. cbn. rewrite Hl. eexists. split; [reflexivity|].
      cbn. rewrite or_zero_id. reflexivity.
  - intros s p stale Hl Hp. unfold ProductDetails.render. cbn.
    rewrite Hl, Hp. do 2 eexists. split; [reflexivity|]. split; [reflexivity|].
    cbn. rewrite or_zero_id. split; reflexivity.
  - intros w d now Hq Ha Hd H1 q a w'. subst w'.
    rewrite (ProductActionsModalFacts.menu_save_valid w Hq Ha), H1, Hd.
    eexists. cbn. rewrite lookup_insert_eq. repeat split.
Qed.

Lemma C4_total_is_quantity_times_price_witness :
  (let w' := exec ProductDetails.handleSave
               (Scenario.detail_edited (Scenario.online 7) 15 120) in
   (exists d', products (db w') !! "p1" = Some d'
               /\ Product.quantity d' = 15
               /\ Product.averagePurchasePrice d' = 120
               /\ Product.totalPurchasePrice d' = 15 * 120)
   /\ (exists pg, ProductDetails.render (ui w') = ProductDetails.Details pg
                  /\ ProductDetails.totalCost pg = 15 * 120))
  /\
  (let w' := exec ProductActionsModal.handleSave
               (Scenario.menu_edited (Scenario.online 7) 15 120) in
   exists d', products (db w') !! "p1" = Some d'
              /\ Product.quantity d' = 15
              /\ Product.averagePurchasePrice d' = 120
              /\ Product.totalPurchasePrice d' = 15 * 120).
Proof.
  split.
  - apply (proj1 C4_total_is_quantity_times_price
             (Scenario.detail_edited (Scenario.online 7) 15 120)
             Scenario.cement Scenario.cement 7 7);
      first [ vm_compute; reflexivity | vm_compute; discriminate ].
  - apply (proj2 (proj2 C4_total_is_quantity_times_price)
             (Scenario.menu_edited (Scenario.online 7) 15 120)
             Scenario.cement 7);
      first [ vm_compute; reflexivity | vm_compute; discriminate ].
Defined.

(** ** Failures of the database *)

Lemma detail_handleSave_completes (w : ProductDetails.W) :
  fst (ProductDetails.handleSave w) = Normal tt.
Proof.
  unfold ProductDetails.handleSave. unfold_handler.
  destruct (ProductDetails.product (ui w)) as [p|]; [|reflexivity].
  destruct (ProductDetails.editedQuantity (ui w) <? 0); [reflexivity|].
  destruct (ProductDetails.editedPrice (ui w) <? 0); [reflexivity|].
  cbn [db answers issued trace ui products productMovements].
  case_answers; reflexivity.
Qed.

Lemma menu_handleSave_completes (w : ProductActionsModal.W) :
  fst (ProductActionsModal.handleSave w) = Normal tt.
Proof.
  unfold ProductActionsModal.handleSave. unfold_handler.
  destruct (ProductActionsModal.editedQuantity (ui w) <? 0); [reflexivity|].
  destruct (ProductActionsModal.editedPrice (ui w) <? 0); [reflexivity|].
  cbn [db answers issued trace ui products productMovements].
  case_answers; reflexivity.
Qed.

(** C7.  A failure of the database during a save never escapes the
    handler: it is logged to the console and shown as the generic error
    notification.  When the product update fails, on the detail page or
    in the menu, the database and the component state are as before the
    save.  When, on the detail page, the update resolved and the movement
    append fails, the product update stays written and mirrored in the
    page's product, no movement is written, the page is still in edit
    mode with the edited values, and no success notification is shown. *)
Theorem C7_store_failure_contained :
  (forall (w : ProductDetails.W) (p : Product.t),
      ProductDetails.product (ui w) = Some p ->
      0 <= ProductDetails.editedQuantity (ui w) ->
      0 <= ProductDetails.editedPrice (ui w) ->
      let q := ProductDetails.editedQuantity (ui w) in
      let a := ProductDetails.editedPrice (ui w) in
      let synced := Product.with_edit p q a (q * a) in
      let w' := exec ProductDetails.handleSave w in
      fst (ProductDetails.handleSave w) = Normal tt
      /\ (forall r, update_fails w (Product.id p) r ->
            db w' = db w /\ ui w' = ui w
            /\ since (trace w) (trace w') =
                 [UpdateDoc (Product.id p) (ProductDetails.patch_of q a);
                  ConsoleError "Error updating product:" r;
                  ShowErrorNotification
                    "Ошибка при обновлении количества товара"])
      /\ (forall d now r,
            products (db w) !! Product.id p = Some d ->
            answers w (issued w) = Resolves now ->
            answers w (S (issued w)) = Rejects r ->
            products (db w') =
              <[Product.id p :=
                  Product.apply_patch now (ProductDetails.patch_of q a) d]>
                (products (db w))
            /\ productMovements (db w') = productMovements (db w)
            /\ ui w' = ProductDetails.update
                         (ProductDetails.setProduct (Some synced)) (ui w)
            /\ ProductDetails.isEditing (ui w') = ProductDetails.isEditing (ui w)
            /\ since (trace w) (trace w') =
                 [UpdateDoc (Product.id p) (ProductDetails.patch_of q a);
                  SetState (ProductDetails.setProduct (Some synced));
                  SetDoc (ProductDetails.movement_of p q a);
                  ConsoleError "Error updating product:" r;
                  ShowErrorNotification
                    "Ошибка при обновлении количества товара"]
            /\ List.filter is_success_notification
                 (since (trace w) (trace w')) = []))
  /\
  (forall (w : ProductActionsModal.W),
      0 <= ProductActionsModal.editedQuantity (ui w) ->
      0 <= ProductActionsModal.editedPrice (ui w) ->
      let q := ProductActionsModal.editedQuantity (ui w) in
      let a := ProductActionsModal.editedPrice (ui w) in
      let key := Product.id (ProductActionsModal.product (ui w)) in
      let w' := exec ProductActionsModal.handleSave w in
      fst (ProductActionsModal.handleSave w) = Normal tt
      /\ (forall r, update_fails w key r ->
            db w' = db w /\ ui w' = ui w
            /\ since (trace w) (trace w') =
                 [UpdateDoc key (ProductActionsModal.patch_of q a);
                  ConsoleError "Error updating product:" r;
                  ShowErrorNotification "Ошибка при обновлении товара"])).
Proof.
  split.
  - intros w p Hp Hq Ha q a synced w'. subst w'.
    split; [apply detail_handleSave_completes|].
    rewrite (ProductDetailsFacts.detail_save_valid w p Hp Hq Ha).
    split.
    + intros r [Hr | (-> & Hnone & now & Hr)]; rewrite Hr; [|rewrite Hnone];
        cbn [db ui trace ProductDetails.save_update_rejected];
        rewrite since_app; auto.
    + intros d now r Hd H1 H2. rewrite H1, Hd, H2.
      cbn [db ui trace products productMovements
             ProductDetails.save_append_rejected].
      rewrite since_app. repeat split.
  - intros w Hq Ha q a key w'. subst w'.
    split; [apply menu_handleSave_completes|].
    rewrite (ProductActionsModalFacts.menu_save_valid w Hq Ha).
    intros r [Hr | (-> & Hnone & now & Hr)]; rewrite Hr;
      [|unfold key in Hnone; rewrite Hnone];
      cbn [db ui trace ProductActionsModal.save_rejected];
      rewrite since_app; auto.
Qed.

(** The running example with the database unreachable for the movement
    append: the product is written, the log is not, the page still edits. *)
Lemma C7_store_failure_contained_witness :
  let w := Scenario.detail_edited (Scenario.fails_after 2 7) 15 120 in
  let w' := exec ProductDetails.handleSave w in
  products (db w') =
    <["p1" := Product.apply_patch 7 (ProductDetails.patch_of 15 120)
                Scenario.cement]> (products (db w))
  /\ productMovements (db w') = productMovements (db w)
  /\ ProductDetails.isEditing (ui w') = true
  /\ List.filter is_success_notification (since (trace w) (trace w')) = [].
Proof.
  intros w w'.
  assert (Hp : ProductDetails.product (ui w) = Some Scenario.cement)
    by (vm_compute; reflexivity).
  assert (Hq : 0 <= ProductDetails.editedQuantity (ui w))
    by (vm_compute; discriminate).
  assert (Ha : 0 <= ProductDetails.editedPrice (ui w))
    by (vm_compute; discriminate).
  destruct (proj1 C7_store_failure_contained w Scenario.cement Hp Hq Ha)
    as (_ & _ & Happend).
  destruct (Happend Scenario.cement 7 "unavailable")
    as (Hprod & Hmov & _ & Hedit & _ & Hnone);
    [vm_compute; reflexivity | reflexivity | reflexivity |].
  split; [exact Hprod | split; [exact Hmov | split; [| exact Hnone]]].
  etransitivity; [exact Hedit | vm_compute; reflexivity].
Defined.

(** ** The quantity dialogs of the actions menu *)

(** C5.  Confirming the "add to expense" (resp. "add to income") quantity
    dialog with quantity [q] sends no request to the database and leaves
    it as it is; it navigates to the expense (resp. income) creation
    route with the payload made of the menu's product and [q], then calls
    [onClose], which closes the menu. *)
Theorem C5_quantity_confirm_navigates_without_writing
    (w : ProductActionsModal.W) (q : Z) :
  (let w' := exec (ProductActionsModal.handleExpenseQuantityConfirm q) w in
   db w' = db w /\ issued w' = issued w
   /\ List.filter is_request (since (trace w) (trace w')) = []
   /\ since (trace w) (trace w') =
        [Navigate "/warehouse/expense/new"
           (Some {| addedProduct_product := ProductActionsModal.product (ui w);
                    addedProduct_quantity := q |});
         OnClose]
   /\ ProductActionsModal.isOpen (ui w') = false)
  /\
  (let w' := exec (ProductActionsModal.handleIncomeQuantityConfirm q) w in
   db w' = db w /\ issued w' = issued w
   /\ List.filter is_request (since (trace w) (trace w')) = []
   /\ since (trace w) (trace w') =
        [Navigate "/warehouse/income/new"
           (Some {| addedProduct_product := ProductActionsModal.product (ui w);
                    addedProduct_quantity := q |});
         OnClose]
   /\ ProductActionsModal.isOpen (ui w') = false).
Proof.
  split; cbn; unfold_handler; cbn; rewrite <- app_assoc, since_app; auto.
Qed.

(** The scenario of the specification: "add to expense" with quantity 3. *)
Example expense_scenario :
  let w := ProductActionsModal.run
             (ProductActionsModal.mount Scenario.stock Scenario.offline
                Scenario.cement)
             [ProductActionsModal.Open;
              ProductActionsModal.ClickAction ProductActionsModal.AddToExpense;
              ProductActionsModal.ExpenseConfirm 3] in
  db w = Scenario.stock
  /\ issued w = 0%nat
  /\ List.filter is_navigation (trace w) =
       [Navigate "/warehouse/expense/new"
          (Some {| addedProduct_product := Scenario.cement;
                   addedProduct_quantity := 3 |})]
  /\ ProductActionsModal.phase (ui w) = ProductActionsModal.Closed.
Proof. vm_compute. repeat split; reflexivity. Qed.

(** ** Loading the product on the detail page *)

(** C10.  On the detail page a load whose read is rejected ends in the
    same state as the load of a product that does not exist: the product
    stays null, loading is over, the not-found screen is rendered.  The
    failure is only logged to the console: no notification is shown in
    either case. *)
Theorem C10_failed_load_looks_like_absent
    (d d' : Firestore) (ans ans' : nat -> Outcome) (i r : string) (now : Z) :
  i <> "" ->
  ans 0%nat = Rejects r ->
  ans' 0%nat = Resolves now ->
  products d' !! i = None ->
  let failed := ProductDetails.mount d ans (Some i) in
  let absent := ProductDetails.mount d' ans' (Some i) in
  trace failed =
    [GetDoc i;
     ConsoleError "Error loading product:" r;
     SetState (ProductDetails.setLoading false)]
  /\ trace absent = [GetDoc i; SetState (ProductDetails.setLoading false)]
  /\ ProductDetails.product (ui failed) = None
  /\ ProductDetails.loading (ui failed) = false
  /\ ui failed = ui absent
  /\ ProductDetails.render (ui failed) = ProductDetails.NotFound
  /\ ProductDetails.render (ui absent) = ProductDetails.NotFound
  /\ db failed = d.
Proof.
  intros Hi Hans Hans' Hnone failed absent. subst failed absent.
  unfold ProductDetails.mount, ProductDetails.loadProduct. unfold_handler.
  cbn. destruct (decide (i = "")) as [->|_]; [congruence|].
  cbn. rewrite Hans, Hans', Hnone. cbn. repeat split.
Qed.

Lemma C10_failed_load_looks_like_absent_witness :
  let failed := ProductDetails.mount Scenario.stock Scenario.offline (Some "p1") in
  let absent := ProductDetails.mount Scenario.sold_out (Scenario.online 7) (Some "p1") in
  ProductDetails.render (ui failed) = ProductDetails.NotFound
  /\ ProductDetails.render (ui absent) = ProductDetails.NotFound
  /\ List.filter is_error_notification (trace failed) = [].
Proof.
  intros failed absent.
  destruct (C10_failed_load_looks_like_absent
              Scenario.stock Scenario.sold_out Scenario.offline (Scenario.online 7)
              "p1" "unavailable" 7)
    as (Ht & _ & _ & _ & _ & Hf & _ & _);
    [discriminate | reflexivity | reflexivity | vm_compute; reflexivity |].
  split; [exact Hf|].
  split; [vm_compute; reflexivity|].
  fold failed in Ht. rewrite Ht. reflexivity.
Defined.

(** ** The password gate *)

Module GateFacts.

Lemma detail_handleSave_isEditing (w : ProductDetails.W) :
  ProductDetails.isEditing (ui (exec ProductDetails.handleSave w)) = true ->
  ProductDetails.isEditing (ui w) = true.
Proof.
  unfold ProductDetails.handleSave. unfold_handler.
  destruct (ProductDetails.product (ui w)) as [p|]; [|auto].
  destruct (ProductDetails.editedQuantity (ui w) <? 0); [auto|].
  destruct (ProductDetails.editedPrice (ui w) <? 0); [auto|].
  cbn [db answers issued trace ui products productMovements].
  case_answers; cbn; auto; discriminate.
Qed.

Lemma detail_prompt_shown (w : ProductDetails.W) :
  ProductDetails.offered (ProductDetails.render (ui w))
    ProductDetails.PromptSuccess = true ->
  ProductDetails.showPasswordPrompt (ui w) = true.
Proof.
  unfold ProductDetails.render.
  destruct (ProductDetails.loading (ui w)); [discriminate|].
  destruct (ProductDetails.product (ui w)); [|discriminate].
  cbn. auto.
Qed.

(** One event takes the detail page into edit mode only if it is the
    prompt's success, delivered while the prompt is shown. *)
Lemma detail_step_isEditing (w : ProductDetails.W) (e : ProductDetails.Event) :
  ProductDetails.isEditing (ui w) = false ->
  ProductDetails.isEditing (ui (ProductDetails.step w e)) = true ->
  e = ProductDetails.PromptSuccess
  /\ ProductDetails.showPasswordPrompt (ui w) = true.
Proof.
  intros Hoff Hon. unfold ProductDetails.step in Hon.
  destruct (ProductDetails.offered (ProductDetails.render (ui w)) e) eqn:Hshown;
    [|congruence].
  destruct e; cbn in Hon;
    try (apply detail_handleSave_isEditing in Hon);
    try congruence.
  split; [reflexivity | apply detail_prompt_shown, Hshown].
Qed.

Lemma detail_run_isEditing (es : list ProductDetails.Event) :
  forall w : ProductDetails.W,
    ProductDetails.isEditing (ui w) = false ->
    ProductDetails.isEditing (ui (ProductDetails.run w es)) = true ->
    exists es1 es2,
      es = (es1 ++ ProductDetails.PromptSuccess :: es2)%list
      /\ ProductDetails.showPasswordPrompt (ui (ProductDetails.run w es1)) = true.
Proof.
  induction es as [|e es IH]; intros w Hoff Hon.
  - cbn in Hon. congruence.
  - cbn in Hon.
    destruct (ProductDetails.isEditing (ui (ProductDetails.step w e))) eqn:He.
    + destruct (detail_step_isEditing w e Hoff He) as [-> Hshown].
      exists [], es. split; [reflexivity | exact Hshown].
    + destruct (IH _ He Hon) as (es1 & es2 & -> & Hshown).
      exists (e :: es1), es2. split; [reflexivity | exact Hshown].
Qed.

Lemma detail_editable_isEditing (s : ProductDetails.State) :
  ProductDetails.editable (ProductDetails.render s) = true ->
  ProductDetails.isEditing s = true.
Proof.
  unfold ProductDetails.render.
  destruct (ProductDetails.loading s); [discriminate|].
  destruct (ProductDetails.product s); [|discriminate].
  cbn. destruct (ProductDetails.isEditing s); [reflexivity | discriminate].
Qed.

Lemma menu_handleSave_isEditing (w : ProductActionsModal.W) :
  ProductActionsModal.isEditing (ui (exec ProductActionsModal.handleSave w)) =
  ProductActionsModal.isEditing (ui w).
Proof.
  unfold ProductActionsModal.handleSave. unfold_handler.
  destruct (ProductActionsModal.editedQuantity (ui w) <? 0); [auto|].
  destruct (ProductActionsModal.editedPrice (ui w) <? 0); [auto|].
  cbn [db answers issued trace ui products productMovements].
  case_answers; cbn; auto.
Qed.

Lemma menu_prompt_shown (w : ProductActionsModal.W) :
  ProductActionsModal.offered (ProductActionsModal.render (ui w))
    ProductActionsModal.PromptSuccess = true ->
  ProductActionsModal.showPasswordPrompt (ui w) = true.
Proof.
  unfold ProductActionsModal.render.
  destruct (ProductActionsModal.isOpen (ui w)); [|discriminate].
  cbn. auto.
Qed.

(** The same for the actions menu. *)
Lemma menu_step_isEditing
    (w : ProductActionsModal.W) (e : ProductActionsModal.Event) :
  ProductActionsModal.isEditing (ui w) = false ->
  ProductActionsModal.isEditing (ui (ProductActionsModal.step w e)) = true ->
  e = ProductActionsModal.PromptSuccess
  /\ ProductActionsModal.showPasswordPrompt (ui w) = true.
Proof.
  intros Hoff Hon. unfold ProductActionsModal.step in Hon.
  destruct (ProductActionsModal.offered
              (ProductActionsModal.render (ui w)) e) eqn:Hshown;
    [|congruence].
  destruct e as [| |a| | | | | | |d| |]; cbn in Hon;
    try (rewrite menu_handleSave_isEditing in Hon);
    try congruence.
  - destruct a; cbn in Hon; congruence.
  - split; [reflexivity | apply menu_prompt_shown, Hshown].
  - destruct d; cbn in Hon; congruence.
Qed.

Lemma menu_run_isEditing (es : list ProductActionsModal.Event) :
  forall w : ProductActionsModal.W,
    ProductActionsModal.isEditing (ui w) = false ->
    ProductActionsModal.isEditing (ui (ProductActionsModal.run w es)) = true ->
    exists es1 es2,
      es = (es1 ++ ProductActionsModal.PromptSuccess :: es2)%list
      /\ ProductActionsModal.showPasswordPrompt
           (ui (ProductActionsModal.run w es1)) = true.
Proof.
  induction es as [|e es IH]; intros w Hoff Hon.
  - cbn in Hon. congruence.
  - cbn in Hon.
    destruct (ProductActionsModal.isEditing
                (ui (ProductActionsModal.step w e))) eqn:He.
    + destruct (menu_step_isEditing w e Hoff He) as [-> Hshown].
      exists [], es. split; [reflexivity | exact Hshown].
    + destruct (IH _ He Hon) as (es1 & es2 & -> & Hshown).
      exists (e :: es1), es2. split; [reflexivity | exact Hshown].
Qed.

Lemma menu_editable_isEditing (s : ProductActionsModal.State) :
  ProductActionsModal.editable (ProductActionsModal.render s) = true ->
  ProductActionsModal.isEditing s = true.
Proof.
  unfold ProductActionsModal.render.
  destruct (ProductActionsModal.isOpen s); [|discriminate].
  cbn. destruct (ProductActionsModal.isEditing s); [reflexivity | discriminate].
Qed.

End GateFacts.

(** C6.  In both components the quantity and price inputs are reached
    only through the password prompt's success callback.  From a state
    that is not in edit mode, whatever the events: if the inputs are on
    the screen afterwards, then the prompt's success was delivered at a
    moment the prompt was shown; a single event enters edit mode only if
    it is that callback; and the prompt being closed (dismissed, or after
    a failed attempt) leaves [isEditing] as it was, so that a sequence
    of events without the success callback leaves the fields read-only. *)
Theorem C6_edit_mode_only_after_password_success :
  (forall (w : ProductDetails.W) (es : list ProductDetails.Event),
      ProductDetails.isEditing (ui w) = false ->
      (ProductDetails.editable
         (ProductDetails.render (ui (ProductDetails.run w es))) = true ->
       exists es1 es2,
         es = (es1 ++ ProductDetails.PromptSuccess :: es2)%list
         /\ ProductDetails.showPasswordPrompt
              (ui (ProductDetails.run w es1)) = true)
      /\ (~ In ProductDetails.PromptSuccess es ->
          ProductDetails.isEditing (ui (ProductDetails.run w es)) = false
          /\ ProductDetails.editable
               (ProductDetails.render (ui (ProductDetails.run w es))) = false)
      /\ (forall e,
            ProductDetails.isEditing (ui (ProductDetails.step w e)) = true ->
            e = ProductDetails.PromptSuccess)
      /\ ProductDetails.isEditing
           (ui (ProductDetails.step w ProductDetails.PromptClose)) = false)
  /\
  (forall (w : ProductActionsModal.W) (es : list ProductActionsModal.Event),
      ProductActionsModal.isEditing (ui w) = false ->
      (ProductActionsModal.editable
         (ProductActionsModal.render (ui (ProductActionsModal.run w es))) = true ->
       exists es1 es2,
         es = (es1 ++ ProductActionsModal.PromptSuccess :: es2)%list
         /\ ProductActionsModal.showPasswordPrompt
              (ui (ProductActionsModal.run w es1)) = true)
      /\ (~ In ProductActionsModal.PromptSuccess es ->
          ProductActionsModal.isEditing
            (ui (ProductActionsModal.run w es)) = false
          /\ ProductActionsModal.editable
               (ProductActionsModal.render
                  (ui (ProductActionsModal.run w es))) = false)
      /\ (forall e,
            ProductActionsModal.isEditing
              (ui (ProductActionsModal.step w e)) = true ->
            e = ProductActionsModal.PromptSuccess)
      /\ ProductActionsModal.isEditing
           (ui (ProductActionsModal.step w ProductActionsModal.PromptClose))
         = false).
Proof.
  split.
  - intros w es Hoff.
    assert (Hrun : ~ In ProductDetails.PromptSuccess es ->
                   ProductDetails.isEditing (ui (ProductDetails.run w es)) = false).
    { intros Hnot.
      destruct (ProductDetails.isEditing (ui (ProductDetails.run w es))) eqn:Hon;
        [|reflexivity].
      destruct (GateFacts.detail_run_isEditing es w Hoff Hon)
        as (es1 & es2 & -> & _).
      exfalso. apply Hnot, in_or_app. right. left. reflexivity. }
    split; [|split; [|split]].
    + intros Hed. apply GateFacts.detail_editable_isEditing in Hed.
      exact (GateFacts.detail_run_isEditing es w Hoff Hed).
    + intros Hnot. split; [exact (Hrun Hnot)|].
      destruct (ProductDetails.editable
                  (ProductDetails.render (ui (ProductDetails.run w es)))) eqn:Hed;
        [|reflexivity].
      apply GateFacts.detail_editable_isEditing in Hed.
      rewrite (Hrun Hnot) in Hed. discriminate.
    + intros e Hon. exact (proj1 (GateFacts.detail_step_isEditing w e Hoff Hon)).
    + destruct (ProductDetails.isEditing
                  (ui (ProductDetails.step w ProductDetails.PromptClose))) eqn:Hon;
        [|reflexivity].
      destruct (GateFacts.detail_step_isEditing w _ Hoff Hon) as [He _].
      discriminate He.
  - intros w es Hoff.
    assert (Hrun : ~ In ProductActionsModal.PromptSuccess es ->
                   ProductActionsModal.isEditing
                     (ui (ProductActionsModal.run w es)) = false).
    { intros Hnot.
      destruct (ProductActionsModal.isEditing
                  (ui (ProductActionsModal.run w es))) eqn:Hon;
        [|reflexivity].
      destruct (GateFacts.menu_run_isEditing es w Hoff Hon)
        as (es1 & es2 & -> & _).
      exfalso. apply Hnot, in_or_app. right. left. reflexivity. }
    split; [|split; [|split]].
    + intros Hed. apply GateFacts.menu_editable_isEditing in Hed.
      exact (GateFacts.menu_run_isEditing es w Hoff Hed).
    + intros Hnot. split; [exact (Hrun Hnot)|].
      destruct (ProductActionsModal.editable
                  (ProductActionsModal.render
                     (ui (ProductActionsModal.run w es)))) eqn:Hed;
        [|reflexivity].
      apply GateFacts.menu_editable_isEditing in Hed.
      rewrite (Hrun Hnot) in Hed. discriminate.
    + intros e Hon. exact (proj1 (GateFacts.menu_step_isEditing w e Hoff Hon)).
    + destruct (ProductActionsModal.isEditing
                  (ui (ProductActionsModal.step w ProductActionsModal.PromptClose)))
        eqn:Hon; [|reflexivity].
      destruct (GateFacts.menu_step_isEditing w _ Hoff Hon) as [He _].
      discriminate He.
Qed.

(** On the running example: asking to edit and then closing the prompt
    leaves both components read-only. *)
Lemma C6_edit_mode_only_after_password_success_witness :
  ProductDetails.editable
    (ProductDetails.render
       (ui (ProductDetails.run
              (ProductDetails.mount Scenario.stock (Scenario.online 7) (Some "p1"))
              [ProductDetails.ClickEdit; ProductDetails.PromptClose;
               ProductDetails.ChangeQuantity (Some 99);
               ProductDetails.ClickSave]))) = false
  /\
  ProductActionsModal.editable
    (ProductActionsModal.render
       (ui (ProductActionsModal.run
              (ProductActionsModal.mount Scenario.stock (Scenario.online 7)
                 Scenario.cement)
              [ProductActionsModal.Open;
               ProductActionsModal.ClickAction ProductActionsModal.Edit;
               ProductActionsModal.PromptClose;
               ProductActionsModal.ClickSave]))) = false.
Proof.
  split.
  - refine (proj2 (proj1 (proj2
      (proj1 C6_edit_mode_only_after_password_success
         (ProductDetails.mount Scenario.stock (Scenario.online 7) (Some "p1"))
         _ _)) _)).
    + vm_compute. reflexivity.
    + cbn. intros [H|[H|[H|[H|[]]]]]; discriminate H.
  - refine (proj2 (proj1 (proj2
      (proj2 C6_edit_mode_only_after_password_success
         (ProductActionsModal.mount Scenario.stock (Scenario.online 7)
            Scenario.cement)
         _ _)) _)).
    + vm_compute. reflexivity.
    + cbn. intros [H|[H|[H|[H|[]]]]]; discriminate H.
Defined.

(** ** The states of the actions menu *)

Module MenuFacts.
Import ProductActionsModal.

Lemma exactly_canonical (ph : Phase) (s : State) :
  exactly ph s ->
  s = canonical ph (product s) (editedQuantity s) (editedPrice s).
Proof.
  destruct s as [o p f1 f2 f3 f4 f5 f6 pp ed q a].
  unfold exactly, flags, canonical. cbn.
  destruct ph as [| | | |d]; [| | | |destruct d];
    destruct f1, f2, f3, f4, f5, f6; cbn; intros [= -> -> ->]; reflexivity.
Qed.

Lemma canonical_exactly (ph : Phase) (p : Product.t) (q a : Z) :
  exactly ph (canonical ph p q a).
Proof. destruct ph as [| | | |d]; [| | | |destruct d]; reflexivity. Qed.

Lemma exactly_phase (ph : Phase) (s : State) : exactly ph s -> phase s = ph.
Proof.
  intros H. rewrite (exactly_canonical ph s H).
  destruct ph as [| | | |d]; [| | | |destruct d]; reflexivity.
Qed.

(** What a save of the inline form leaves of the component state: the
    state as it was, or the same with the menu closed. *)
Lemma handleSave_ui (w : W) :
  ui (exec handleSave w) = ui w
  \/ ui (exec handleSave w) = update (parentSetsIsOpen false) (ui w).
Proof.
  unfold handleSave. unfold_handler.
  destruct (editedQuantity (ui w) <? 0); [auto|].
  destruct (editedPrice (ui w) <? 0); [auto|].
  cbn [db answers issued trace ui products productMovements].
  case_answers; cbn; auto.
Qed.

Lemma step_canonical (w : W) (ph : Phase) (e : Event) :
  exactly ph (ui w) ->
  step w e =
    if offered (render (canonical ph (product (ui w)) (editedQuantity (ui w))
                          (editedPrice (ui w)))) e
    then exec (handler e) w else w.
Proof.
  intros H. unfold step. rewrite <- (exactly_canonical ph (ui w) H). reflexivity.
Qed.

End MenuFacts.

(** C8 (the code does not do this when a closed menu is opened again).
    Claimed: Closed goes to MenuOpen on open.  Neither the close button
    nor the save handler resets the hooks of the menu: both only call
    [onClose].  The hooks run before the early [return null], so an
    instance rendered with [isOpen] false keeps them.  On the running
    example: the menu is opened and unlocked with the password, then
    closed, by a successful save or by the close button; it is Closed,
    and opening it again shows the edit form with its inputs, not the
    list of actions, which is no transition of the specification's
    machine.  The save of the detail page, on the same edit, does leave
    edit mode. *)
Theorem C8_reopened_menu_resumes_edit_form :
  let w := ProductActionsModal.run
             (ProductActionsModal.mount Scenario.stock (Scenario.online 7)
                Scenario.cement)
             [ProductActionsModal.Open;
              ProductActionsModal.ClickAction ProductActionsModal.Edit;
              ProductActionsModal.PromptSuccess;
              ProductActionsModal.ClickClose] in
  let saved := ProductActionsModal.step
                 (Scenario.menu_edited (Scenario.online 7) 15 120)
                 ProductActionsModal.ClickSave in
  ProductActionsModal.phase (ui w) = ProductActionsModal.Closed
  /\ ProductActionsModal.phase
       (ui (ProductActionsModal.step w ProductActionsModal.Open)) =
     ProductActionsModal.EditingInline
  /\ ProductActionsModal.spec_transition
       (ProductActionsModal.phase (ui w))
       (ProductActionsModal.phase
          (ui (ProductActionsModal.step w ProductActionsModal.Open))) = false
  /\ ProductActionsModal.phase (ui saved) = ProductActionsModal.Closed
  /\ ProductActionsModal.phase
       (ui (ProductActionsModal.step saved ProductActionsModal.Open)) =
     ProductActionsModal.EditingInline
  /\ ProductActionsModal.editable
       (ProductActionsModal.render
          (ui (ProductActionsModal.step saved ProductActionsModal.Open))) = true
  /\ ProductDetails.isEditing
       (ui (ProductDetails.step
              (Scenario.detail_edited (Scenario.online 7) 15 120)
              ProductDetails.ClickSave)) = false.
Proof. vm_compute. repeat split; reflexivity. Qed.

Ltac menu_step H :=
  rewrite (MenuFacts.step_canonical _ _ _ H); cbn;
  rewrite (MenuFacts.exactly_canonical _ _ H); cbn.

(** The transitions of the menu between states in which no other flag
    of the instance is set (a closed instance has all its hooks clear,
    as when freshly mounted): opening a closed instance gives MenuOpen;
    from MenuOpen the edit action gives AwaitingPassword and every other
    action gives its sub-dialog, and no single event gives
    EditingInline; closing a sub-dialog gives back MenuOpen;
    AwaitingPassword becomes EditingInline on the prompt's success and
    on nothing else, and MenuOpen when the prompt is closed; cancelling
    the form gives back MenuOpen; the outer close gives Closed from
    every open state and keeps the hooks; opening sets the prop and
    nothing else.  From a state exactly in Closed, MenuOpen,
    AwaitingPassword or EditingInline every event is a transition of the
    specification's machine. *)
Lemma menu_transitions_between_exact_phases (w : ProductActionsModal.W) :
  (ProductActionsModal.exactly ProductActionsModal.Closed (ui w) ->
   ProductActionsModal.exactly ProductActionsModal.MenuOpen
     (ui (ProductActionsModal.step w ProductActionsModal.Open)))
  /\
  (ProductActionsModal.exactly ProductActionsModal.MenuOpen (ui w) ->
   ProductActionsModal.exactly ProductActionsModal.AwaitingPassword
     (ui (ProductActionsModal.step w
            (ProductActionsModal.ClickAction ProductActionsModal.Edit)))
   /\ (forall a d,
         ProductActionsModal.dialog_of a = Some d ->
         ProductActionsModal.exactly (ProductActionsModal.SubDialogOpen d)
           (ui (ProductActionsModal.step w (ProductActionsModal.ClickAction a))))
   /\ (forall e,
         ProductActionsModal.phase (ui (ProductActionsModal.step w e)) <>
         ProductActionsModal.EditingInline))
  /\
  (forall d,
      ProductActionsModal.exactly (ProductActionsModal.SubDialogOpen d) (ui w) ->
      ProductActionsModal.exactly ProductActionsModal.MenuOpen
        (ui (ProductActionsModal.step w (ProductActionsModal.DialogClose d))))
  /\
  (ProductActionsModal.exactly ProductActionsModal.AwaitingPassword (ui w) ->
   ProductActionsModal.exactly ProductActionsModal.EditingInline
     (ui (ProductActionsModal.step w ProductActionsModal.PromptSuccess))
   /\ ProductActionsModal.exactly ProductActionsModal.MenuOpen
        (ui (ProductActionsModal.step w ProductActionsModal.PromptClose))
   /\ (forall e,
         ProductActionsModal.phase (ui (ProductActionsModal.step w e)) =
         ProductActionsModal.EditingInline ->
         e = ProductActionsModal.PromptSuccess))
  /\
  (ProductActionsModal.exactly ProductActionsModal.EditingInline (ui w) ->
   ProductActionsModal.exactly ProductActionsModal.MenuOpen
     (ui (ProductActionsModal.step w ProductActionsModal.ClickCancel)))
  /\
  (ProductActionsModal.isOpen (ui w) = true ->
   ui (ProductActionsModal.step w ProductActionsModal.ClickClose) =
     ProductActionsModal.update (ProductActionsModal.parentSetsIsOpen false) (ui w)
   /\ ProductActionsModal.phase
        (ui (ProductActionsModal.step w ProductActionsModal.ClickClose)) =
      ProductActionsModal.Closed)
  /\
  (ui (ProductActionsModal.step w ProductActionsModal.Open) =
     ProductActionsModal.update (ProductActionsModal.parentSetsIsOpen true) (ui w))
  /\
  (forall ph e,
      ProductActionsModal.exactly ph (ui w) ->
      (forall d, ph <> ProductActionsModal.SubDialogOpen d) ->
      ProductActionsModal.spec_transition ph
        (ProductActionsModal.phase (ui (ProductActionsModal.step w e))) = true).
Proof.
  repeat match goal with |- _ /\ _ => split end.
  - intros H. menu_step H. reflexivity.
  - intros H. split; [|split].
    + menu_step H. reflexivity.
    + intros a d Ha. destruct a; inversion Ha; subst d; menu_step H; reflexivity.
    + intros e.
      destruct e as [| |a| | | | | | |d| |];
        [| |destruct a| | | | | | |destruct d| |];
        rewrite (MenuFacts.step_canonical _ _ _ H); cbn;
        try (rewrite (MenuFacts.exactly_canonical _ _ H); cbn); discriminate.
  - intros d H. destruct d; menu_step H; reflexivity.
  - intros H. split; [|split].
    + menu_step H. reflexivity.
    + menu_step H. reflexivity.
    + intros e.
      destruct e as [| |a| | | | | | |d| |];
        [| |destruct a| | | | | | |destruct d| |];
        rewrite (MenuFacts.step_canonical _ _ _ H); cbn;
        try (rewrite (MenuFacts.exactly_canonical _ _ H); cbn);
        first [ discriminate | reflexivity ].
  - intros H. menu_step H. reflexivity.
  - intros H. unfold ProductActionsModal.step, ProductActionsModal.render.
    rewrite H. cbn. split; [reflexivity|].
    unfold ProductActionsModal.phase. cbn. reflexivity.
  - unfold ProductActionsModal.step. cbn. reflexivity.
  - intros ph e H Hnot.
    destruct ph as [| | | |d0]; [| | | |exfalso; exact (Hnot d0 eq_refl)].
    + destruct e as [| |a| | | | | | |d| |];
        [| |destruct a| | | | | | |destruct d| |];
        rewrite (MenuFacts.step_canonical _ _ _ H); cbn;
        rewrite ?(MenuFacts.exactly_phase _ _ H);
        try reflexivity;
        rewrite (MenuFacts.exactly_canonical _ _ H); reflexivity.
    + destruct (ProductActionsModal.phase (ui (ProductActionsModal.step w e)));
        reflexivity.
    + destruct e as [| |a| | | | | | |d| |];
        [| |destruct a| | | | | | |destruct d| |];
        rewrite (MenuFacts.step_canonical _ _ _ H); cbn;
        rewrite ?(MenuFacts.exactly_phase _ _ H);
        try reflexivity;
        try (rewrite (MenuFacts.exactly_canonical _ _ H); reflexivity).
      destruct (MenuFacts.handleSave_ui w) as [-> | ->].
      * rewrite (MenuFacts.exactly_phase _ _ H). reflexivity.
      * rewrite (MenuFacts.exactly_canonical _ _ H). reflexivity.
    + destruct e as [| |a| | | | | | |d| |];
        [| |destruct a| | | | | | |destruct d| |];
        rewrite (MenuFacts.step_canonical _ _ _ H); cbn;
        rewrite ?(MenuFacts.exactly_phase _ _ H);
        try reflexivity;
        rewrite (MenuFacts.exactly_canonical _ _ H); reflexivity.
Qed.


(** A freshly mounted menu, opened, shows the list of actions. *)
Example fresh_menu_opens_on_the_action_list :
  ProductActionsModal.exactly ProductActionsModal.MenuOpen
    (ui (ProductActionsModal.step
           (ProductActionsModal.mount Scenario.stock (Scenario.online 7)
              Scenario.cement)
           ProductActionsModal.Open)).
Proof.
  apply (proj1 (menu_transitions_between_exact_phases
                  (ProductActionsModal.mount Scenario.stock (Scenario.online 7)
                     Scenario.cement))).
  reflexivity.
Qed.


(** * Further properties of the two components *)

(** ** One event at a time *)

Module StepFacts.

(** What a save of the detail page ends in, for a loaded product. *)
Lemma detail_save_outcome (w : ProductDetails.W) (p : Product.t) :
  ProductDetails.product (ui w) = Some p ->
  (exists msg,
      exec ProductDetails.handleSave w = emit (ShowErrorNotification msg) w)
  \/ (0 <= ProductDetails.editedQuantity (ui w)
      /\ 0 <= ProductDetails.editedPrice (ui w)
      /\ ((exists r,
              exec ProductDetails.handleSave w =
                ProductDetails.save_update_rejected w p r)
          \/ (exists now d,
                 products (db w) !! Product.id p = Some d
                 /\ ((exists r,
                         exec ProductDetails.handleSave w =
                           ProductDetails.save_append_rejected w p now d r)
                     \/ (exists now',
                            exec ProductDetails.handleSave w =
                              ProductDetails.save_done w p now now' d))))).
Proof.
  intros Hp.
  destruct (Z.lt_ge_cases (ProductDetails.editedQuantity (ui w)) 0) as [Hq|Hq].
  { left. eexists.
    apply (ProductDetailsFacts.detail_save_negative_quantity w p Hp Hq). }
  destruct (Z.lt_ge_cases (ProductDetails.editedPrice (ui w)) 0) as [Ha|Ha].
  { left. eexists.
    apply (ProductDetailsFacts.detail_save_negative_price w p Hp Hq Ha). }
  right. split; [exact Hq|]. split; [exact Ha|].
  rewrite (ProductDetailsFacts.detail_save_valid w p Hp Hq Ha).
  destruct (answers w (issued w)) as [now|r]; [|left; eauto].
  destruct (products (db w) !! Product.id p) as [d|] eqn:Hd; [|left; eauto].
  right. exists now, d. split; [reflexivity|].
  destruct (answers w (S (issued w))) as [now'|r]; eauto.
Qed.

(** A click on the save button of the detail page: nothing when the
    button is not there, the save handler on a loaded product in edit
    mode otherwise. *)
Lemma detail_step_save (w : ProductDetails.W) :
  ProductDetails.step w ProductDetails.ClickSave = w
  \/ (exists p,
         ProductDetails.product (ui w) = Some p
         /\ ProductDetails.loading (ui w) = false
         /\ ProductDetails.isEditing (ui w) = true
         /\ ProductDetails.step w ProductDetails.ClickSave =
              exec ProductDetails.handleSave w).
Proof.
  unfold ProductDetails.step.
  destruct (ProductDetails.offered (ProductDetails.render (ui w))
              ProductDetails.ClickSave) eqn:Hshown; [|left; reflexivity].
  right. destruct (detail_save_offered (ui w) Hshown) as (p & Hp & Hl & He).
  exists p. auto.
Qed.

(** Every other event of the detail page leaves the database side of
    the world alone and changes the page by hook updates only. *)
Lemma detail_step_other (w : ProductDetails.W) (e : ProductDetails.Event) :
  e <> ProductDetails.ClickSave ->
  db (ProductDetails.step w e) = db w
  /\ issued (ProductDetails.step w e) = issued w
  /\ answers (ProductDetails.step w e) = answers w.
Proof.
  intros Hne. unfold ProductDetails.step.
  destruct (ProductDetails.offered (ProductDetails.render (ui w)) e);
    [|auto].
  destruct e; try congruence; cbn; auto.
Qed.

(** The same three facts for the actions menu. *)
Lemma menu_save_outcome (w : ProductActionsModal.W) :
  (exists msg,
      exec ProductActionsModal.handleSave w =
        emit (ShowErrorNotification msg) w)
  \/ (0 <= ProductActionsModal.editedQuantity (ui w)
      /\ 0 <= ProductActionsModal.editedPrice (ui w)
      /\ ((exists r,
              exec ProductActionsModal.handleSave w =
                ProductActionsModal.save_rejected w r)
          \/ (exists now d,
                 products (db w)
                   !! Product.id (ProductActionsModal.product (ui w)) = Some d
                 /\ exec ProductActionsModal.handleSave w =
                      ProductActionsModal.save_done w now d))).
Proof.
  destruct (Z.lt_ge_cases (ProductActionsModal.editedQuantity (ui w)) 0)
    as [Hq|Hq].
  { left. eexists.
    apply (ProductActionsModalFacts.menu_save_negative_quantity w Hq). }
  destruct (Z.lt_ge_cases (ProductActionsModal.editedPrice (ui w)) 0)
    as [Ha|Ha].
  { left. eexists.
    apply (ProductActionsModalFacts.menu_save_negative_price w Hq Ha). }
  right. split; [exact Hq|]. split; [exact Ha|].
  rewrite (ProductActionsModalFacts.menu_save_valid w Hq Ha).
  destruct (answers w (issued w)) as [now|r]; [|left; eauto].
  destruct (products (db w) !! Product.id (ProductActionsModal.product (ui w)))
    as [d|] eqn:Hd; [|left; eauto].
  right. exists now, d. auto.
Qed.

Lemma menu_step_save (w : ProductActionsModal.W) :
  ProductActionsModal.step w ProductActionsModal.ClickSave = w
  \/ (ProductActionsModal.isOpen (ui w) = true
      /\ ProductActionsModal.isEditing (ui w) = true
      /\ ProductActionsModal.step w ProductActionsModal.ClickSave =
           exec ProductActionsModal.handleSave w).
Proof.
  unfold ProductActionsModal.step, ProductActionsModal.render.
  destruct (ProductActionsModal.isOpen (ui w)); [|left; reflexivity].
  cbn. destruct (ProductActionsModal.isEditing (ui w)); cbn; auto.
Qed.

Lemma menu_step_other (w : ProductActionsModal.W) (e : ProductActionsModal.Event) :
  e <> ProductActionsModal.ClickSave ->
  db (ProductActionsModal.step w e) = db w
  /\ issued (ProductActionsModal.step w e) = issued w
  /\ answers (ProductActionsModal.step w e) = answers w.
Proof.
  intros Hne. unfold ProductActionsModal.step.
  destruct (ProductActionsModal.offered (ProductActionsModal.render (ui w)) e);
    [|auto].
  destruct e as [| |a| | | | | | |d| |]; try congruence; cbn; auto.
  - destruct a; cbn; auto.
  - destruct d; cbn; auto.
Qed.

Lemma detail_event_eq_dec (e : ProductDetails.Event) :
  {e = ProductDetails.ClickSave} + {e <> ProductDetails.ClickSave}.
Proof. destruct e; (left; reflexivity) || (right; discriminate). Defined.

Lemma menu_event_eq_dec (e : ProductActionsModal.Event) :
  {e = ProductActionsModal.ClickSave} + {e <> ProductActionsModal.ClickSave}.
Proof. destruct e; (left; reflexivity) || (right; discriminate). Defined.

Lemma detail_run_cons (w : ProductDetails.W) e es :
  ProductDetails.run w (e :: es) = ProductDetails.run (ProductDetails.step w e) es.
Proof. reflexivity. Qed.

Lemma menu_run_cons (w : ProductActionsModal.W) e es :
  ProductActionsModal.run w (e :: es) =
  ProductActionsModal.run (ProductActionsModal.step w e) es.
Proof. reflexivity. Qed.

End StepFacts.

(** ** Loading, and the screens that lead nowhere *)

(** X1.  When the read of the mount effect resolves on an existing
    document, the page holds that document under the route id, the form
    starts from its quantity and average price, and the page is shown
    read-only with the total computed from them; exactly one request was
    sent, the read, and the database is as it was. *)
Theorem X1_load_shows_stored_product
    (d : Firestore) (ans : nat -> Outcome) (i : string) (doc : Product.t)
    (now : Z) :
  i <> "" ->
  ans 0%nat = Resolves now ->
  products d !! i = Some doc ->
  let w := ProductDetails.mount d ans (Some i) in
  db w = d
  /\ issued w = 1%nat
  /\ List.filter is_request (trace w) = [GetDoc i]
  /\ ProductDetails.product (ui w) = Some (Product.of_snapshot i doc)
  /\ ProductDetails.editedQuantity (ui w) = Product.quantity doc
  /\ ProductDetails.editedPrice (ui w) = Product.averagePurchasePrice doc
  /\ ProductDetails.isEditing (ui w) = false
  /\ exists pg,
       ProductDetails.render (ui w) = ProductDetails.Details pg
       /\ ProductDetails.quantityField pg =
            ProductDetails.Text (Product.quantity doc)
       /\ ProductDetails.priceField pg =
            ProductDetails.Text (Product.averagePurchasePrice doc)
       /\ ProductDetails.totalCost pg =
            Product.quantity doc * Product.averagePurchasePrice doc
       /\ ProductDetails.buttons pg = [ProductDetails.EditButton]
       /\ ProductDetails.codeValue pg = i.
Proof.
  intros Hi Hans Hdoc w. subst w.
  unfold ProductDetails.mount, ProductDetails.loadProduct. unfold_handler.
  cbn. destruct (decide (i = "")) as [->|_]; [congruence|].
  cbn. rewrite Hans, Hdoc. cbn -[or_zero]. rewrite !or_zero_id.
  repeat (split; [reflexivity|]).
  eexists. split; [reflexivity|]. cbn -[or_zero]. rewrite ?or_zero_id.
  repeat split.
Qed.

Lemma X1_load_shows_stored_product_witness :
  ProductDetails.product
    (ui (ProductDetails.mount Scenario.stock (Scenario.online 7) (Some "p1")))
  = Some Scenario.cement
  /\ ProductDetails.editedQuantity
       (ui (ProductDetails.mount Scenario.stock (Scenario.online 7) (Some "p1")))
     = 10.
Proof.
  destruct (X1_load_shows_stored_product Scenario.stock (Scenario.online 7)
              "p1" Scenario.cement 7)
    as (_ & _ & _ & Hp & Hq & _);
    [discriminate | reflexivity | vm_compute; reflexivity |].
  split; [exact Hp | exact Hq].
Defined.

(** While the page is loading nothing on it reacts. *)
Lemma detail_loading_inert (es : list ProductDetails.Event) :
  forall w : ProductDetails.W,
    ProductDetails.loading (ui w) = true -> ProductDetails.run w es = w.
Proof.
  induction es as [|e es IH]; intros w Hl; [reflexivity|].
  rewrite StepFacts.detail_run_cons.
  assert (Hstep : ProductDetails.step w e = w).
  { unfold ProductDetails.step, ProductDetails.render. rewrite Hl. reflexivity. }
  rewrite Hstep. apply IH, Hl.
Qed.

(** X2.  Without a route id (undefined, or the empty string) the mount
    effect returns before its [try]: no request is sent, [loading] is
    never cleared, and whatever the user does afterwards the page stays
    the spinner and the world does not change. *)
Theorem X2_missing_route_id_spins_forever
    (d : Firestore) (ans : nat -> Outcome) (i : option string)
    (es : list ProductDetails.Event) :
  i = None \/ i = Some "" ->
  let w := ProductDetails.mount d ans i in
  trace w = [] /\ issued w = 0%nat /\ db w = d
  /\ ProductDetails.run w es = w
  /\ ProductDetails.render (ui (ProductDetails.run w es)) =
       ProductDetails.Spinner.
Proof.
  intros Hi w.
  assert (Hw : w = {| db := d; answers := ans; issued := 0%nat; trace := [];
                      ui := ProductDetails.initial i |}).
  { subst w. destruct Hi as [-> | ->]; reflexivity. }
  assert (Hl : ProductDetails.loading (ui w) = true) by (rewrite Hw; reflexivity).
  rewrite (detail_loading_inert es w Hl).
  rewrite Hw. repeat split.
Qed.

Lemma X2_missing_route_id_spins_forever_witness :
  ProductDetails.render
    (ui (ProductDetails.run
           (ProductDetails.mount Scenario.stock (Scenario.online 7) (Some ""))
           [ProductDetails.ClickEdit; ProductDetails.PromptSuccess;
            ProductDetails.ClickSave; ProductDetails.ClickBackToList])) =
    ProductDetails.Spinner.
Proof.
  apply (X2_missing_route_id_spins_forever Scenario.stock (Scenario.online 7)
           (Some "") _).
  right. reflexivity.
Defined.

(** On the not-found screen only the link back to the list reacts. *)
Lemma detail_not_found_step (w : ProductDetails.W) (e : ProductDetails.Event) :
  ProductDetails.render (ui w) = ProductDetails.NotFound ->
  ProductDetails.step w e = w
  \/ ProductDetails.step w e = emit (Navigate "/warehouse/products" None) w.
Proof.
  intros Hnf. unfold ProductDetails.step. rewrite Hnf.
  destruct e; cbn; auto.
Qed.

(** X3.  The not-found screen is a dead end: from it, whatever the
    events, the page state and the database stay as they are, no request
    is sent (the load is never retried), and the only effects are
    navigations to the product list. *)
Theorem X3_not_found_is_a_dead_end
    (w : ProductDetails.W) (es : list ProductDetails.Event) :
  ProductDetails.render (ui w) = ProductDetails.NotFound ->
  ui (ProductDetails.run w es) = ui w
  /\ db (ProductDetails.run w es) = db w
  /\ issued (ProductDetails.run w es) = issued w
  /\ exists k,
       trace (ProductDetails.run w es) =
         (trace w ++ repeat (Navigate "/warehouse/products" None) k)%list.
Proof.
  revert w. induction es as [|e es IH]; intros w Hnf.
  - cbn. repeat split. exists 0%nat. cbn. rewrite app_nil_r. reflexivity.
  - rewrite StepFacts.detail_run_cons.
    destruct (detail_not_found_step w e Hnf) as [-> | ->].
    + exact (IH w Hnf).
    + destruct (IH (emit (Navigate "/warehouse/products" None) w) Hnf)
        as (Hui & Hdb & Hiss & k & Htr).
      rewrite Hui, Hdb, Hiss. repeat split.
      exists (S k). rewrite Htr. cbn. rewrite <- app_assoc. reflexivity.
Qed.

(** A product whose read was rejected is never asked for again. *)
Lemma X3_not_found_is_a_dead_end_witness :
  issued
    (ProductDetails.run
       (ProductDetails.mount Scenario.stock Scenario.offline (Some "p1"))
       [ProductDetails.ClickEdit; ProductDetails.ClickBackToList;
        ProductDetails.ClickSave]) = 1%nat.
Proof.
  destruct (X3_not_found_is_a_dead_end
              (ProductDetails.mount Scenario.stock Scenario.offline (Some "p1"))
              [ProductDetails.ClickEdit; ProductDetails.ClickBackToList;
               ProductDetails.ClickSave])
    as (_ & _ & Hiss & _); [vm_compute; reflexivity|].
  exact Hiss.
Defined.

(** ** What reaches the database *)

(** X4.  Only the save button talks to the database: a sequence of
    events without a click on it, on the detail page or in the actions
    menu, sends no request and leaves the database as it is. *)
Theorem X4_only_save_reaches_the_database :
  (forall (es : list ProductDetails.Event) (w : ProductDetails.W),
      ~ In ProductDetails.ClickSave es ->
      db (ProductDetails.run w es) = db w
      /\ issued (ProductDetails.run w es) = issued w)
  /\
  (forall (es : list ProductActionsModal.Event) (w : ProductActionsModal.W),
      ~ In ProductActionsModal.ClickSave es ->
      db (ProductActionsModal.run w es) = db w
      /\ issued (ProductActionsModal.run w es) = issued w).
Proof.
  split.
  - induction es as [|e es IH]; intros w Hnot; [auto|].
    rewrite StepFacts.detail_run_cons.
    assert (Hne : e <> ProductDetails.ClickSave)
      by (intros ->; apply Hnot; left; reflexivity).
    destruct (StepFacts.detail_step_other w e Hne) as (Hdb & Hiss & _).
    destruct (IH (ProductDetails.step w e)) as [Hdb' Hiss'];
      [intros Hin; apply Hnot; right; exact Hin|].
    rewrite Hdb', Hiss'. auto.
  - induction es as [|e es IH]; intros w Hnot; [auto|].
    rewrite StepFacts.menu_run_cons.
    assert (Hne : e <> ProductActionsModal.ClickSave)
      by (intros ->; apply Hnot; left; reflexivity).
    destruct (StepFacts.menu_step_other w e Hne) as (Hdb & Hiss & _).
    destruct (IH (ProductActionsModal.step w e)) as [Hdb' Hiss'];
      [intros Hin; apply Hnot; right; exact Hin|].
    rewrite Hdb', Hiss'. auto.
Qed.

Lemma X4_only_save_reaches_the_database_witness :
  db (ProductDetails.run (Scenario.detail_edited (Scenario.online 7) 15 120)
        [ProductDetails.ChangeQuantity (Some 3); ProductDetails.ClickCancel;
         ProductDetails.ClickShowHistory]) =
  db (Scenario.detail_edited (Scenario.online 7) 15 120).
Proof.
  refine (proj1 (proj1 X4_only_save_reaches_the_database _ _ _)).
  cbn. intros [H|[H|[H|[]]]]; discriminate H.
Defined.

(** X5.  No write without the password: from a state that is not in
    edit mode, a sequence of events in which the prompt never reports
    success sends no request and leaves the database as it is, on the
    detail page and in the actions menu, whatever buttons are clicked. *)
Theorem X5_no_write_without_password_success :
  (forall (es : list ProductDetails.Event) (w : ProductDetails.W),
      ProductDetails.isEditing (ui w) = false ->
      ~ In ProductDetails.PromptSuccess es ->
      db (ProductDetails.run w es) = db w
      /\ issued (ProductDetails.run w es) = issued w)
  /\
  (forall (es : list ProductActionsModal.Event) (w : ProductActionsModal.W),
      ProductActionsModal.isEditing (ui w) = false ->
      ~ In ProductActionsModal.PromptSuccess es ->
      db (ProductActionsModal.run w es) = db w
      /\ issued (ProductActionsModal.run w es) = issued w).
Proof.
  split.
  - induction es as [|e es IH]; intros w Hoff Hnot; [auto|].
    rewrite StepFacts.detail_run_cons.
    assert (Hoff' : ProductDetails.isEditing (ui (ProductDetails.step w e)) = false).
    { destruct (ProductDetails.isEditing (ui (ProductDetails.step w e))) eqn:Hon;
        [|reflexivity].
      destruct (GateFacts.detail_step_isEditing w e Hoff Hon) as [-> _].
      exfalso. apply Hnot. left. reflexivity. }
    destruct (IH (ProductDetails.step w e) Hoff') as [Hdb' Hiss'];
      [intros Hin; apply Hnot; right; exact Hin|].
    rewrite Hdb', Hiss'.
    destruct (StepFacts.detail_event_eq_dec e) as [-> | Hne].
    + destruct (StepFacts.detail_step_save w) as [-> | (p & _ & _ & Hon & _)];
        [auto | congruence].
    + destruct (StepFacts.detail_step_other w e Hne) as (Hdb & Hiss & _). auto.
  - induction es as [|e es IH]; intros w Hoff Hnot; [auto|].
    rewrite StepFacts.menu_run_cons.
    assert (Hoff' : ProductActionsModal.isEditing
                      (ui (ProductActionsModal.step w e)) = false).
    { destruct (ProductActionsModal.isEditing
                  (ui (ProductActionsModal.step w e))) eqn:Hon; [|reflexivity].
      destruct (GateFacts.menu_step_isEditing w e Hoff Hon) as [-> _].
      exfalso. apply Hnot. left. reflexivity. }
    destruct (IH (ProductActionsModal.step w e) Hoff') as [Hdb' Hiss'];
      [intros Hin; apply Hnot; right; exact Hin|].
    rewrite Hdb', Hiss'.
    destruct (StepFacts.menu_event_eq_dec e) as [-> | Hne].
    + destruct (StepFacts.menu_step_save w) as [-> | (_ & Hon & _)];
        [auto | congruence].
    + destruct (StepFacts.menu_step_other w e Hne) as (Hdb & Hiss & _). auto.
Qed.

(** Typing a quantity and clicking save on a locked page writes nothing. *)
Lemma X5_no_write_without_password_success_witness :
  db (ProductDetails.run
        (ProductDetails.mount Scenario.stock (Scenario.online 7) (Some "p1"))
        [ProductDetails.ClickEdit; ProductDetails.PromptClose;
         ProductDetails.ChangeQuantity (Some 99); ProductDetails.ClickSave]) =
  Scenario.stock.
Proof.
  refine (proj1 (proj1 X5_no_write_without_password_success _
                   (ProductDetails.mount Scenario.stock (Scenario.online 7)
                      (Some "p1")) _ _)).
  - vm_compute. reflexivity.
  - cbn. intros [H|[H|[H|[H|[]]]]]; discriminate H.
Defined.

(** X6.  The actions menu never touches the movement log: whatever the
    events and whatever the database answers, [productMovements] is as
    it was; and an event sends at most one request. *)
Theorem X6_menu_never_touches_the_movement_log
    (es : list ProductActionsModal.Event) (w : ProductActionsModal.W) :
  productMovements (db (ProductActionsModal.run w es)) = productMovements (db w)
  /\ (issued (ProductActionsModal.run w es) <= issued w + length es)%nat.
Proof.
  revert w. induction es as [|e es IH]; intros w; [cbn; split; [auto|lia]|].
  rewrite StepFacts.menu_run_cons.
  destruct (IH (ProductActionsModal.step w e)) as [Hm Hi].
  rewrite Hm. cbn [length].
  destruct (StepFacts.menu_event_eq_dec e) as [-> | Hne].
  - destruct (StepFacts.menu_step_save w) as [Hs | (_ & _ & Hs)];
      rewrite Hs in Hi |- *; [split; [auto|lia]|].
    split; [apply ProductActionsModalFacts.menu_save_movements|].
    assert (Hone : (issued (exec ProductActionsModal.handleSave w)
                    <= S (issued w))%nat).
    { destruct (StepFacts.menu_save_outcome w)
        as [[msg Hw] | (_ & _ & [[r Hw] | (now & d & _ & Hw)])];
        rewrite Hw; cbn; lia. }
    lia.
  - destruct (StepFacts.menu_step_other w e Hne) as (Hdb & Hiss & _).
    rewrite Hdb. split; [auto|lia].
Qed.

(** ** Invariants of the stored products *)

Module StockFacts.

(** The events of the detail page other than the save leave the product
    it holds alone. *)
Lemma detail_step_other_product (w : ProductDetails.W) (e : ProductDetails.Event) :
  e <> ProductDetails.ClickSave ->
  ProductDetails.product (ui (ProductDetails.step w e)) =
  ProductDetails.product (ui w).
Proof.
  intros Hne. unfold ProductDetails.step.
  destruct (ProductDetails.offered (ProductDetails.render (ui w)) e);
    [|reflexivity].
  destruct e; try congruence; reflexivity.
Qed.

(** The page never changes the id of the product it holds. *)
Lemma detail_step_product_id
    (w : ProductDetails.W) (e : ProductDetails.Event) (p : Product.t) :
  ProductDetails.product (ui w) = Some p ->
  exists p',
    ProductDetails.product (ui (ProductDetails.step w e)) = Some p'
    /\ Product.id p' = Product.id p.
Proof.
  intros Hp. destruct (StepFacts.detail_event_eq_dec e) as [-> | Hne].
  - destruct (StepFacts.detail_step_save w) as [-> | (p0 & Hp0 & _ & _ & ->)];
      [eauto|].
    assert (p0 = p) by congruence. subst p0.
    destruct (StepFacts.detail_save_outcome w p Hp)
      as [[msg ->] | (_ & _ & [[r ->] | (now & d & _ & [[r ->] | [now' ->]])])];
      cbn; rewrite ?Hp; eauto.
  - rewrite (detail_step_other_product w e Hne). eauto.
Qed.

(** The props of the menu do not change under its own events, the
    [isOpen] flag apart. *)
Lemma menu_step_product (w : ProductActionsModal.W) (e : ProductActionsModal.Event) :
  ProductActionsModal.product (ui (ProductActionsModal.step w e)) =
  ProductActionsModal.product (ui w).
Proof.
  destruct (StepFacts.menu_event_eq_dec e) as [-> | Hne].
  - destruct (StepFacts.menu_step_save w) as [-> | (_ & _ & ->)]; [reflexivity|].
    destruct (MenuFacts.handleSave_ui w) as [-> | ->]; reflexivity.
  - unfold ProductActionsModal.step.
    destruct (ProductActionsModal.offered (ProductActionsModal.render (ui w)) e);
      [|reflexivity].
    destruct e as [| |a| | | | | | |d| |]; try congruence; try reflexivity.
    + destruct a; reflexivity.
    + destruct d; reflexivity.
Qed.

(** One event of the detail page: the stored documents keep their keys,
    and every document but the page's own is as before. *)
Lemma detail_step_documents (w : ProductDetails.W) (e : ProductDetails.Event) :
  dom (products (db (ProductDetails.step w e))) = dom (products (db w))
  /\ (forall p key,
         ProductDetails.product (ui w) = Some p ->
         key <> Product.id p ->
         products (db (ProductDetails.step w e)) !! key =
         products (db w) !! key).
Proof.
  destruct (StepFacts.detail_event_eq_dec e) as [-> | Hne].
  - destruct (StepFacts.detail_step_save w) as [-> | (p0 & Hp0 & _ & _ & ->)];
      [auto|].
    destruct (StepFacts.detail_save_outcome w p0 Hp0)
      as [[msg ->] | (_ & _ & [[r ->] | (now & d & Hd & [[r ->] | [now' ->]])])];
      cbn; auto;
      (split;
       [apply dom_insert_lookup_L; rewrite Hd; eauto
       |intros p key Hp Hkey; assert (p = p0) by congruence; subst p;
        apply lookup_insert_ne; congruence]).
  - destruct (StepFacts.detail_step_other w e Hne) as (-> & _ & _). auto.
Qed.

Lemma menu_step_documents (w : ProductActionsModal.W) (e : ProductActionsModal.Event) :
  dom (products (db (ProductActionsModal.step w e))) = dom (products (db w))
  /\ (forall key,
         key <> Product.id (ProductActionsModal.product (ui w)) ->
         products (db (ProductActionsModal.step w e)) !! key =
         products (db w) !! key).
Proof.
  destruct (StepFacts.menu_event_eq_dec e) as [-> | Hne].
  - destruct (StepFacts.menu_step_save w) as [-> | (_ & _ & ->)]; [auto|].
    destruct (StepFacts.menu_save_outcome w)
      as [[msg ->] | (_ & _ & [[r ->] | (now & d & Hd & ->)])];
      cbn; auto.
    split;
      [apply dom_insert_lookup_L; rewrite Hd; eauto
      |intros key Hkey; apply lookup_insert_ne; congruence].
  - destruct (StepFacts.menu_step_other w e Hne) as (-> & _ & _). auto.
Qed.

(** A validated patch makes a sound product of any document. *)
Lemma sound_patch (now q a : Z) (d : Product.t) :
  0 <= q -> 0 <= a ->
  sound_product (Product.apply_patch now (ProductDetails.patch_of q a) d).
Proof. intros Hq Ha. unfold sound_product. cbn. auto. Qed.

Lemma detail_step_sound (w : ProductDetails.W) (e : ProductDetails.Event) :
  sound_stock (db w) -> sound_stock (db (ProductDetails.step w e)).
Proof.
  intros Hs. destruct (StepFacts.detail_event_eq_dec e) as [-> | Hne].
  - destruct (StepFacts.detail_step_save w) as [-> | (p0 & Hp0 & _ & _ & ->)];
      [auto|].
    destruct (StepFacts.detail_save_outcome w p0 Hp0)
      as [[msg ->] | (Hq & Ha & [[r ->] | (now & d & Hd & [[r ->] | [now' ->]])])];
      cbn; auto;
      apply map_Forall_insert_2; auto using sound_patch.
  - destruct (StepFacts.detail_step_other w e Hne) as (-> & _ & _). auto.
Qed.

Lemma menu_step_sound (w : ProductActionsModal.W) (e : ProductActionsModal.Event) :
  sound_stock (db w) -> sound_stock (db (ProductActionsModal.step w e)).
Proof.
  intros Hs. destruct (StepFacts.menu_event_eq_dec e) as [-> | Hne].
  - destruct (StepFacts.menu_step_save w) as [-> | (_ & _ & ->)]; [auto|].
    destruct (StepFacts.menu_save_outcome w)
      as [[msg ->] | (Hq & Ha & [[r ->] | (now & d & Hd & ->)])];
      cbn; auto.
    apply map_Forall_insert_2; [|exact Hs].
    exact (sound_patch now _ _ d Hq Ha).
  - destruct (StepFacts.menu_step_other w e Hne) as (-> & _ & _). auto.
Qed.

End StockFacts.

(** X7.  Editing never creates or deletes a product document, and never
    touches a document other than the one of the product being edited:
    after any sequence of events, on the detail page or in the actions
    menu, the keys of [products] are the same and every other document
    is as it was. *)
Theorem X7_no_product_created_or_deleted :
  (forall (es : list ProductDetails.Event) (w : ProductDetails.W),
      dom (products (db (ProductDetails.run w es))) = dom (products (db w))
      /\ (forall p key,
             ProductDetails.product (ui w) = Some p ->
             key <> Product.id p ->
             products (db (ProductDetails.run w es)) !! key =
             products (db w) !! key))
  /\
  (forall (es : list ProductActionsModal.Event) (w : ProductActionsModal.W),
      dom (products (db (ProductActionsModal.run w es))) = dom (products (db w))
      /\ (forall key,
             key <> Product.id (ProductActionsModal.product (ui w)) ->
             products (db (ProductActionsModal.run w es)) !! key =
             products (db w) !! key)).
Proof.
  split.
  - induction es as [|e es IH]; intros w; [auto|].
    rewrite StepFacts.detail_run_cons.
    destruct (IH (ProductDetails.step w e)) as [Hdom Hothers].
    destruct (StockFacts.detail_step_documents w e) as [Hdom1 Hothers1].
    split; [congruence|].
    intros p key Hp Hkey.
    destruct (StockFacts.detail_step_product_id w e p Hp) as (p' & Hp' & Hid).
    rewrite (Hothers p' key Hp') by congruence.
    exact (Hothers1 p key Hp Hkey).
  - induction es as [|e es IH]; intros w; [auto|].
    rewrite StepFacts.menu_run_cons.
    destruct (IH (ProductActionsModal.step w e)) as [Hdom Hothers].
    destruct (StockFacts.menu_step_documents w e) as [Hdom1 Hothers1].
    split; [congruence|].
    intros key Hkey.
    rewrite Hothers by (rewrite StockFacts.menu_step_product; exact Hkey).
    exact (Hothers1 key Hkey).
Qed.

(** Saving "p1" leaves an absent "p2" absent. *)
Lemma X7_no_product_created_or_deleted_witness :
  products
    (db (ProductDetails.run (Scenario.detail_edited (Scenario.online 7) 15 120)
           [ProductDetails.ClickSave])) !! "p2" = None.
Proof.
  etransitivity.
  - refine (proj2 (proj1 X7_no_product_created_or_deleted _
                     (Scenario.detail_edited (Scenario.online 7) 15 120))
              Scenario.cement "p2" _ _).
    + vm_compute. reflexivity.
    + discriminate.
  - vm_compute. reflexivity.
Defined.

(** X8.  Validation keeps the stock sound: if every stored product has
    a non-negative quantity, a non-negative average price and a total
    equal to their product, then so it is after any sequence of events on
    the detail page or in the actions menu, whatever values are typed
    and whatever the database answers. *)
Theorem X8_validation_keeps_the_stock_sound :
  (forall (es : list ProductDetails.Event) (w : ProductDetails.W),
      sound_stock (db w) -> sound_stock (db (ProductDetails.run w es)))
  /\
  (forall (es : list ProductActionsModal.Event) (w : ProductActionsModal.W),
      sound_stock (db w) -> sound_stock (db (ProductActionsModal.run w es))).
Proof.
  split.
  - induction es as [|e es IH]; intros w Hs; [exact Hs|].
    rewrite StepFacts.detail_run_cons.
    apply IH, StockFacts.detail_step_sound, Hs.
  - induction es as [|e es IH]; intros w Hs; [exact Hs|].
    rewrite StepFacts.menu_run_cons.
    apply IH, StockFacts.menu_step_sound, Hs.
Qed.

Lemma X8_validation_keeps_the_stock_sound_witness :
  sound_stock
    (db (ProductActionsModal.run
           (Scenario.menu_edited (Scenario.online 7) (-4) 120)
           [ProductActionsModal.ClickSave;
            ProductActionsModal.ChangeQuantity (Some 0);
            ProductActionsModal.ClickSave])).
Proof.
  apply (proj2 X8_validation_keeps_the_stock_sound).
  replace (db (Scenario.menu_edited (Scenario.online 7) (-4) 120))
    with Scenario.stock by (vm_compute; reflexivity).
  unfold sound_stock, Scenario.stock. cbn [products].
  apply map_Forall_singleton. unfold sound_product. cbn.
  repeat split; lia.
Defined.

(** ** The movement log of the detail page *)

Module LogFacts.

Lemma movement_well_formed (now q a : Z) (p : Product.t) :
  0 <= q -> 0 <= a ->
  well_formed (Movement.stamped now (ProductDetails.movement_of p q a)).
Proof.
  intros Hq Ha. unfold well_formed. cbn.
  repeat (split; [first [assumption | reflexivity | apply Z.abs_nonneg]|]).
  rewrite Z.gtb_ltb.
  destruct (Z.ltb_spec (Product.quantity p) q); split; intros H';
    first [assumption | reflexivity | discriminate | lia].
Qed.

(** The events of the page cannot give it a product it does not hold:
    the load runs on mount only. *)
Lemma detail_step_product_none (w : ProductDetails.W) (e : ProductDetails.Event) :
  ProductDetails.product (ui w) = None ->
  ProductDetails.product (ui (ProductDetails.step w e)) = None.
Proof.
  intros Hp. destruct (StepFacts.detail_event_eq_dec e) as [-> | Hne].
  - destruct (StepFacts.detail_step_save w) as [-> | (p0 & Hp0 & _)];
      [exact Hp | congruence].
  - rewrite (StockFacts.detail_step_other_product w e Hne). exact Hp.
Qed.

(** One event appends at most one movement, well formed and of the
    page's own product. *)
Lemma detail_step_log (w : ProductDetails.W) (e : ProductDetails.Event) :
  exists added,
    productMovements (db (ProductDetails.step w e)) =
      (productMovements (db w) ++ added)%list
    /\ Forall well_formed added
    /\ (forall m, In m added ->
          exists p, ProductDetails.product (ui w) = Some p
                    /\ Movement.productId m = Product.id p)
    /\ (length added <= 1)%nat.
Proof.
  assert (Hnil : forall w' : ProductDetails.W,
             productMovements (db w') = productMovements (db w) ->
             exists added,
               productMovements (db w') =
                 (productMovements (db w) ++ added)%list
               /\ Forall well_formed added
               /\ (forall m, In m added ->
                     exists p, ProductDetails.product (ui w) = Some p
                               /\ Movement.productId m = Product.id p)
               /\ (length added <= 1)%nat).
  { intros w' Hw'. exists []. rewrite app_nil_r.
    repeat split; [exact Hw' | constructor | intros m [] | cbn; lia]. }
  destruct (StepFacts.detail_event_eq_dec e) as [-> | Hne].
  - destruct (StepFacts.detail_step_save w) as [-> | (p0 & Hp0 & _ & _ & ->)];
      [apply Hnil; reflexivity|].
    destruct (StepFacts.detail_save_outcome w p0 Hp0)
      as [[msg ->] | (Hq & Ha & [[r ->] | (now & d & Hd & [[r ->] | [now' ->]])])];
      try (apply Hnil; reflexivity).
    eexists. split; [reflexivity|].
    split; [repeat constructor; apply movement_well_formed; assumption|].
    split; [|cbn; lia].
    intros m [<- | []]. exists p0. split; [exact Hp0 | reflexivity].
  - apply Hnil. destruct (StepFacts.detail_step_other w e Hne) as (-> & _ & _).
    reflexivity.
Qed.

End LogFacts.

(** X9.  On the detail page the movement log only grows: after any
    sequence of events the old entries are still there, in order; there
    is at most one new entry per event; every new entry has a
    non-negative quantity equal to the absolute change, a non-negative
    price, total = quantity * price, direction "in" exactly when the
    quantity rose; and it refers to the product the page holds. *)
Theorem X9_movement_log_only_grows
    (es : list ProductDetails.Event) (w : ProductDetails.W) :
  exists added,
    productMovements (db (ProductDetails.run w es)) =
      (productMovements (db w) ++ added)%list
    /\ Forall well_formed added
    /\ (forall m, In m added ->
          exists p, ProductDetails.product (ui w) = Some p
                    /\ Movement.productId m = Product.id p)
    /\ (length added <= length es)%nat.
Proof.
  revert w. induction es as [|e es IH]; intros w.
  - exists []. cbn. rewrite app_nil_r.
    repeat split; [constructor | intros m [] | lia].
  - rewrite StepFacts.detail_run_cons.
    destruct (LogFacts.detail_step_log w e) as (a1 & H1 & Hwf1 & Hid1 & Hlen1).
    destruct (IH (ProductDetails.step w e)) as (a2 & H2 & Hwf2 & Hid2 & Hlen2).
    exists (a1 ++ a2)%list. rewrite H2, H1, <- app_assoc.
    split; [reflexivity|].
    split; [apply Forall_app; auto|].
    split; [|rewrite length_app; cbn; lia].
    intros m Hin. apply in_app_or in Hin. destruct Hin as [Hin|Hin];
      [exact (Hid1 m Hin)|].
    destruct (Hid2 m Hin) as (p' & Hp' & Hm).
    destruct (ProductDetails.product (ui w)) as [p|] eqn:Hp.
    + destruct (StockFacts.detail_step_product_id w e p Hp) as (p'' & Hp'' & Hid).
      exists p. split; [reflexivity | congruence].
    + rewrite (LogFacts.detail_step_product_none w e Hp) in Hp'. discriminate.
Qed.

(** ** Forms, screens and what they show *)

(** X12.  A closed menu does nothing: while [isOpen] is false and the
    parent does not open it, no event changes anything, no effect is
    produced and no request is sent. *)
Theorem X12_closed_menu_is_inert
    (es : list ProductActionsModal.Event) (w : ProductActionsModal.W) :
  ProductActionsModal.isOpen (ui w) = false ->
  ~ In ProductActionsModal.Open es ->
  ProductActionsModal.run w es = w.
Proof.
  revert w. induction es as [|e es IH]; intros w Hc Hnot; [reflexivity|].
  rewrite StepFacts.menu_run_cons.
  assert (Hstep : ProductActionsModal.step w e = w).
  { unfold ProductActionsModal.step, ProductActionsModal.render. rewrite Hc.
    destruct e; try reflexivity. exfalso. apply Hnot. left. reflexivity. }
  rewrite Hstep. apply IH; [exact Hc|].
  intros Hin. apply Hnot. right. exact Hin.
Qed.

Lemma X12_closed_menu_is_inert_witness :
  ProductActionsModal.run
    (ProductActionsModal.mount Scenario.stock (Scenario.online 7) Scenario.cement)
    [ProductActionsModal.ClickAction ProductActionsModal.Delete;
     ProductActionsModal.PromptSuccess; ProductActionsModal.ClickSave;
     ProductActionsModal.ExpenseConfirm 3] =
  ProductActionsModal.mount Scenario.stock (Scenario.online 7) Scenario.cement.
Proof.
  apply X12_closed_menu_is_inert.
  - reflexivity.
  - cbn. intros [H|[H|[H|[H|[]]]]]; discriminate H.
Defined.

Lemma input_value_round_trip (focused : bool) (v : Z) :
  ProductDetails.number_of_value (ProductDetails.input_value focused v) = v.
Proof.
  unfold ProductDetails.input_value.
  destruct focused; cbn; [|reflexivity].
  destruct (Z.eqb_spec v 0); cbn; congruence.
Qed.

(** X13.  What an input of the detail page shows reads back as the
    number it stands for, the empty string of a focused zero included:
    if the change handler receives the value the quantity (resp. price)
    input currently displays, the page state is unchanged. *)
Theorem X13_displayed_value_reads_back
    (w : ProductDetails.W) (pg : ProductDetails.Page) :
  ProductDetails.render (ui w) = ProductDetails.Details pg ->
  (forall v,
      ProductDetails.quantityField pg = ProductDetails.Input v ->
      ui (ProductDetails.step w (ProductDetails.ChangeQuantity v)) = ui w)
  /\ (forall v,
        ProductDetails.priceField pg = ProductDetails.Input v ->
        ui (ProductDetails.step w (ProductDetails.ChangePrice v)) = ui w).
Proof.
  intros Hr. destruct w as [d ans n t [i p sh ac l ed q a pp f]].
  unfold ProductDetails.step. cbn [ui] in *. rewrite Hr.
  unfold ProductDetails.render in Hr. cbn in Hr.
  destruct l; [discriminate|]. destruct p as [p|]; [|discriminate].
  injection Hr as <-. cbn.
  destruct ed; split; intros v Hv; try discriminate Hv;
    injection Hv as <-; cbn; rewrite input_value_round_trip; reflexivity.
Qed.

(** A focused, emptied quantity field reads back as 0. *)
Lemma X13_displayed_value_reads_back_witness :
  ui (ProductDetails.step
        (ProductDetails.run (Scenario.detail_edited (Scenario.online 7) 0 120)
           [ProductDetails.FocusInput])
        (ProductDetails.ChangeQuantity None)) =
  ui (ProductDetails.run (Scenario.detail_edited (Scenario.online 7) 0 120)
        [ProductDetails.FocusInput]).
Proof.
  refine (proj1 (X13_displayed_value_reads_back
                   (ProductDetails.run
                      (Scenario.detail_edited (Scenario.online 7) 0 120)
                      [ProductDetails.FocusInput]) _ _) None _).
  - vm_compute. reflexivity.
  - reflexivity.
Defined.

(** X14.  Cancel does not reset the form.  On the detail page and in
    the actions menu, cancelling an edit and unlocking again with the
    password shows the values that were typed before the cancel, not
    the product's: the form values, the product held and the database
    are as before the cancel, and the component is in edit mode. *)
Theorem X14_cancel_keeps_the_typed_values :
  (forall w : ProductDetails.W,
      ProductDetails.offered (ProductDetails.render (ui w))
        ProductDetails.ClickCancel = true ->
      let w' := ProductDetails.run w
                  [ProductDetails.ClickCancel; ProductDetails.ClickEdit;
                   ProductDetails.PromptSuccess] in
      ui w' = ProductDetails.update (ProductDetails.setShowPasswordPrompt false)
                (ui w)
      /\ ProductDetails.isEditing (ui w') = true
      /\ ProductDetails.editedQuantity (ui w') = ProductDetails.editedQuantity (ui w)
      /\ ProductDetails.editedPrice (ui w') = ProductDetails.editedPrice (ui w)
      /\ db w' = db w)
  /\
  (forall w : ProductActionsModal.W,
      ProductActionsModal.offered (ProductActionsModal.render (ui w))
        ProductActionsModal.ClickCancel = true ->
      let w' := ProductActionsModal.run w
                  [ProductActionsModal.ClickCancel;
                   ProductActionsModal.ClickAction ProductActionsModal.Edit;
                   ProductActionsModal.PromptSuccess] in
      ui w' = ProductActionsModal.update
                (ProductActionsModal.setShowPasswordPrompt false) (ui w)
      /\ ProductActionsModal.isEditing (ui w') = true
      /\ ProductActionsModal.editedQuantity (ui w') =
           ProductActionsModal.editedQuantity (ui w)
      /\ ProductActionsModal.editedPrice (ui w') =
           ProductActionsModal.editedPrice (ui w)
      /\ db w' = db w).
Proof.
  split.
  - intros [d ans n t s]. cbn [ui]. unfold ProductDetails.render.
    destruct s as [i p sh ac l ed q a pp f]. cbn.
    destruct l; [discriminate|]. destruct p as [p|]; [|discriminate].
    destruct ed; [|discriminate]. intros _. cbn. auto.
  - intros [d ans n t s]. cbn [ui]. unfold ProductActionsModal.render.
    destruct s as [o p f1 f2 f3 f4 f5 f6 pp ed q a]. cbn.
    destruct o; [|discriminate]. destruct ed; [|discriminate].
    intros _. cbn. auto.
Qed.

Lemma X14_cancel_keeps_the_typed_values_witness :
  ProductDetails.editedQuantity
    (ui (ProductDetails.run (Scenario.detail_edited (Scenario.online 7) 15 120)
           [ProductDetails.ClickCancel; ProductDetails.ClickEdit;
            ProductDetails.PromptSuccess])) =
  ProductDetails.editedQuantity
    (ui (Scenario.detail_edited (Scenario.online 7) 15 120)).
Proof.
  refine (proj1 (proj2 (proj2
    (proj1 X14_cancel_keeps_the_typed_values
       (Scenario.detail_edited (Scenario.online 7) 15 120) _)))).
  vm_compute. reflexivity.
Defined.

(** X15.  The inline form of the menu starts from the product it was
    mounted with: opened and unlocked, whatever the database holds, the
    menu shows the edit title and a form with the quantity and the
    average price of its [product] prop, and has sent no request. *)
Theorem X15_menu_form_starts_from_the_product
    (d : Firestore) (ans : nat -> Outcome) (p : Product.t) :
  let w := ProductActionsModal.run (ProductActionsModal.mount d ans p)
             [ProductActionsModal.Open;
              ProductActionsModal.ClickAction ProductActionsModal.Edit;
              ProductActionsModal.PromptSuccess] in
  ProductActionsModal.render (ui w) =
    Some {| ProductActionsModal.title := "Редактирование товара";
            ProductActionsModal.body :=
              ProductActionsModal.EditForm (Product.quantity p)
                (Product.averagePurchasePrice p);
            ProductActionsModal.passwordPromptOpen := false;
            ProductActionsModal.openDialogs := [] |}
  /\ issued w = 0%nat /\ db w = d.
Proof.
  cbn -[or_zero]. rewrite !or_zero_id. repeat split.
Qed.

(** X16.  After a successful save the detail page is read-only again
    and shows what was saved: the quantity and price cells are plain
    text with the saved values, the only button is "edit", and the
    stock badge says "in stock" exactly when the saved quantity is
    above the product's minimum, a missing minimum counting as 0 (a
    quantity equal to the minimum is "low"). *)
Theorem X16_page_after_save
    (w : ProductDetails.W) (p d : Product.t) (now now' : Z) :
  ProductDetails.loading (ui w) = false ->
  ProductDetails.product (ui w) = Some p ->
  0 <= ProductDetails.editedQuantity (ui w) ->
  0 <= ProductDetails.editedPrice (ui w) ->
  products (db w) !! Product.id p = Some d ->
  answers w (issued w) = Resolves now ->
  answers w (S (issued w)) = Resolves now' ->
  let q := ProductDetails.editedQuantity (ui w) in
  let a := ProductDetails.editedPrice (ui w) in
  exists pg,
    ProductDetails.render (ui (exec ProductDetails.handleSave w)) =
      ProductDetails.Details pg
    /\ ProductDetails.quantityField pg = ProductDetails.Text q
    /\ ProductDetails.priceField pg = ProductDetails.Text a
    /\ ProductDetails.buttons pg = [ProductDetails.EditButton]
    /\ (ProductDetails.inStock pg = true <->
        match Product.minQuantity p with
        | Some m => m < q
        | None => 0 < q
        end).
Proof.
  intros Hl Hp Hq Ha Hd H1 H2 q a.
  rewrite (ProductDetailsFacts.detail_save_valid w p Hp Hq Ha), H1, Hd, H2.
  unfold ProductDetails.render. cbn -[or_zero]. rewrite Hl.
  eexists. split; [reflexivity|]. cbn -[or_zero opt_or_zero].
  repeat (split; [reflexivity|]).
  fold q. rewrite Z.gtb_ltb.
  destruct (Product.minQuantity p) as [m|]; cbn -[or_zero];
    rewrite ?or_zero_id; apply Z.ltb_lt.
Qed.

(** Saving exactly the minimum of the running example (5) shows "low". *)
Lemma X16_page_after_save_witness :
  exists pg,
    ProductDetails.render
      (ui (exec ProductDetails.handleSave
             (Scenario.detail_edited (Scenario.online 7) 5 120))) =
      ProductDetails.Details pg
    /\ ProductDetails.quantityField pg = ProductDetails.Text 5
    /\ ProductDetails.inStock pg = false.
Proof.
  destruct (X16_page_after_save
              (Scenario.detail_edited (Scenario.online 7) 5 120)
              Scenario.cement Scenario.cement 7 7)
    as (pg & Hr & Hqf & _ & _ & Hstock);
    try (vm_compute; reflexivity); try (vm_compute; discriminate).
  exists pg. split; [exact Hr|]. split; [exact Hqf|].
  destruct (ProductDetails.inStock pg); [|reflexivity].
  exfalso. cbn in Hstock. destruct Hstock as [Hlt _].
  specialize (Hlt eq_refl). revert Hlt. vm_compute. intros H. discriminate H.
Defined.
